(** * Runtime endpoint resolution and request pipeline of the dashboard

    A shallow embedding of [frontend/env.template.js] (the Environment
    Injector, [configureRuntimeEnv]) and of [frontend/app.js] (endpoint
    resolver, [normalizeUrl], [fetchFromBackend], the three action handlers
    and the initial health check), followed by the properties of the
    specification stated over that embedding. *)

From Stdlib Require Import List ZArith NArith Bool Lia String Ascii.
Import ListNotations.
Open Scope Z_scope.

(** ** JavaScript strings and numbers *)

Module JS.

(** A JavaScript string is a sequence of UTF-16 code units. *)
Definition jsstring := list N.

(** An ASCII literal of the source, as code units. *)
Definition str (s : string) : jsstring :=
  map N_of_ascii (list_ascii_of_string s).

Arguments str : simpl never.

Fixpoint jseqb (a b : jsstring) : bool :=
  match a, b with
  | [], [] => true
  | x :: a', y :: b' => N.eqb x y && jseqb a' b'
  | _, _ => false
  end.

(** ToBoolean on a string: only the empty string is falsy. *)
Definition truthy (s : jsstring) : bool :=
  match s with [] => false | _ :: _ => true end.

(** WhiteSpace and LineTerminator code units (ECMA-262, 12.2 and 12.3):
    what [String.prototype.trim] strips and [parseInt] skips. *)
Definition isWhiteSpace (c : N) : bool :=
  ((9 <=? c) && (c <=? 13) || (c =? 32) || (c =? 160) || (c =? 0x1680)
   || (0x2000 <=? c) && (c <=? 0x200A)
   || (c =? 0x2028) || (c =? 0x2029) || (c =? 0x202F) || (c =? 0x205F)
   || (c =? 0x3000) || (c =? 0xFEFF))%N.

Fixpoint trimStart (s : jsstring) : jsstring :=
  match s with
  | c :: r => if isWhiteSpace c then trimStart r else s
  | [] => []
  end.

Definition trimEnd (s : jsstring) : jsstring := rev (trimStart (rev s)).

(** [String.prototype.trim] *)
Definition trim (s : jsstring) : jsstring := trimEnd (trimStart s).

Fixpoint startsWith (p s : jsstring) : bool :=
  match p, s with
  | [], _ => true
  | a :: p', b :: s' => N.eqb a b && startsWith p' s'
  | _ :: _, [] => false
  end.

(** [String.prototype.includes]: [p] occurs in [s] as a substring. *)
Fixpoint includes (s p : jsstring) : bool :=
  startsWith p s || match s with [] => false | _ :: s' => includes s' p end.

(** The Number values that occur in this program are NaN, the infinities and
    integral finite values ([parseInt] results, HTTP statuses).  A finite
    value is kept as the integer it denotes; the sign of zero is not
    tracked, since [Number.isFinite], ToBoolean and ToString do not
    distinguish +0 from -0. *)
Inductive number :=
| NaN
| Infinity (negative : bool)
| Finite (z : Z).

(** The Number value for a mathematical integer: round to the nearest value
    with a 53-bit significand, ties to even; a magnitude of [2^1024] or more
    after rounding is infinite. *)
Definition roundSignificand (m : Z) : Z :=
  if m <? 2 ^ 53 then m
  else
    let e := Z.log2 m - 52 in
    let q := Z.shiftr m e in
    let r := m - Z.shiftl q e in
    let half := Z.shiftl 1 (e - 1) in
    let q' := if r <? half then q
              else if half <? r then q + 1
              else if Z.even q then q else q + 1 in
    Z.shiftl q' e.

Definition toNumber (z : Z) : number :=
  let v := roundSignificand (Z.abs z) in
  if 2 ^ 1024 <=? v then Infinity (z <? 0) else Finite (Z.sgn z * v).

Definition isDigit (c : N) : bool := ((48 <=? c) && (c <=? 57))%N.

Fixpoint digitsPrefix (s : jsstring) : jsstring :=
  match s with
  | c :: r => if isDigit c then c :: digitsPrefix r else []
  | [] => []
  end.

Definition digitsValue (ds : jsstring) : Z :=
  fold_left (fun acc c => 10 * acc + (Z.of_N c - 48)) ds 0.

(** [Number.parseInt(string, 10)] (ECMA-262, 19.2.5): skip leading white
    space, read an optional sign, take the longest prefix of decimal digits;
    no digit gives NaN, otherwise the Number value of the signed integer.
    Whatever follows the digits is ignored.  (For more than 20 significant
    digits the standard lets an implementation approximate the integer; the
    exact value is taken here, as the common engines do.) *)
Definition parseInt10 (input : jsstring) : number :=
  let s := trimStart input in
  let '(negative, s) :=
    match s with
    | c :: r => if N.eqb c 45 then (true, r)
                else if N.eqb c 43 then (false, r) else (false, s)
    | [] => (false, s)
    end in
  match digitsPrefix s with
  | [] => NaN
  | ds => toNumber (if negative then - digitsValue ds else digitsValue ds)
  end.

(** [Number.isFinite] *)
Definition isFinite (x : number) : bool :=
  match x with Finite _ => true | _ => false end.

(** Decimal digits of a non-negative integer, most significant first. *)
Fixpoint digitsFuel (fuel : nat) (n : Z) (acc : jsstring) : jsstring :=
  match fuel with
  | O => acc
  | S f =>
      let acc' := Z.to_N (48 + n mod 10) :: acc in
      if n <? 10 then acc' else digitsFuel f (n / 10) acc'
  end.

Definition decimal (n : Z) : jsstring :=
  digitsFuel (S (Z.to_nat (Z.log2 n))) n [].

(** The shortest significand of Number::toString (ECMA-262, 6.1.6.1.20) for
    a positive integral Number [x]: the least [k] for which some [s] of [k]
    digits and some [e >= 0] give [toNumber (s * 10^e) = x]; among the
    candidates of that length the one closest to [x].  [d] is the number of
    decimal digits of [x], and [x] itself is a candidate for [k = d]. *)
Definition candidate (x k e : Z) : option (Z * Z) :=
  if e <? 0 then None
  else
    let p := 10 ^ e in
    let ok s :=
      (10 ^ (k - 1) <=? s) && (s <? 10 ^ k)
      && match toNumber (s * p) with Finite y => y =? x | _ => false end in
    let lo := x / p in
    let hi := lo + 1 in
    match ok lo, ok hi with
    | true, true =>
        if x - lo * p <? hi * p - x then Some (lo, e)
        else if hi * p - x <? x - lo * p then Some (hi, e)
        else if Z.even lo then Some (lo, e) else Some (hi, e)
    | true, false => Some (lo, e)
    | false, true => Some (hi, e)
    | false, false => None
    end.

Fixpoint shortestFrom (fuel : nat) (x d k : Z) : Z * Z :=
  match fuel with
  | O => (x, 0)
  | S f =>
      match candidate x k (d - k + 1), candidate x k (d - k) with
      | Some r, _ => r
      | None, Some r => r
      | None, None => shortestFrom f x d (k + 1)
      end
  end.

Definition shortest (x : Z) : Z * Z :=
  let d := Z.of_nat (List.length (decimal x)) in
  shortestFrom (Z.to_nat d) x d 1.

(** Number::toString at radix 10 on a finite integral Number, as a template
    literal applies it: plain digits up to 21 of them, exponent notation
    beyond. *)
Definition positiveToString (x : Z) : jsstring :=
  let '(s, e) := shortest x in
  let ds := decimal s in
  let n := Z.of_nat (List.length ds) + e in
  if n <=? 21 then ds ++ repeat 48%N (Z.to_nat e)
  else
    match ds with
    | [] => []
    | d1 :: rest =>
        d1 :: (match rest with [] => [] | _ => 46%N :: rest end)
           ++ str "e+" ++ decimal (n - 1)
    end.

Definition integerToString (z : Z) : jsstring :=
  if z =? 0 then str "0"
  else if z <? 0 then 45%N :: positiveToString (- z)
  else positiveToString z.

Definition numberToString (x : number) : jsstring :=
  match x with
  | NaN => str "NaN"
  | Infinity false => str "Infinity"
  | Infinity true => str "-Infinity"
  | Finite z => integerToString z
  end.

End JS.

Import JS.

(** ** Environment Injector ([env.template.js]) *)

(** The two process-wide slots the injector may write and the resolver
    reads; [None] is JavaScript's [undefined]. *)
Record Window := {
  __BACKEND_URL__ : option jsstring;
  __BACKEND_PORT__ : option Z
}.

Definition emptyWindow : Window :=
  {| __BACKEND_URL__ := None; __BACKEND_PORT__ := None |}.

(** ['${' + NAME + '}'], the marker rebuilt from its identifier. *)
Definition placeholder (name : jsstring) : jsstring :=
  str "${" ++ name ++ str "}".

(** [configureRuntimeEnv]: [urlLiteral] and [portLiteral] are the values of
    the two string literals of the template after the container start-up
    substituted (or did not substitute) the environment variables into
    them.  The substitution is textual: a value with a quote, a backslash or
    a line break in it changes the script itself and is outside this
    function. *)
Definition configureRuntimeEnv (urlLiteral portLiteral : jsstring) : Window :=
  let configuredUrl := trim urlLiteral in
  let configuredPort := trim portLiteral in
  let url :=
    if truthy configuredUrl
       && negb (jseqb configuredUrl (placeholder (str "BACKEND_URL")))
    then Some configuredUrl else None in
  let port :=
    if truthy configuredPort
       && negb (jseqb configuredPort (placeholder (str "BACKEND_PORT")))
    then
      let numericPort := parseInt10 configuredPort in
      match numericPort with
      | Finite n => Some n
      | _ => None
      end
    else None in
  {| __BACKEND_URL__ := url; __BACKEND_PORT__ := port |}.

(** ** Endpoint Resolver ([app.js], lines 1-9) *)

Record Location := { protocol : jsstring; hostname : jsstring }.

Definition defaultPort : Z := 8000.

(** The template literal [`${protocol}//${hostname}:${port}`]. *)
Definition pageOrigin (loc : Location) (port : Z) : jsstring :=
  protocol loc ++ str "//" ++ hostname loc ++ str ":" ++ integerToString port.

Definition backendBaseUrl (w : Window) (loc : Location) : jsstring :=
  match __BACKEND_URL__ w with
  | Some (c :: u) => c :: u
  | _ =>
      let port := match __BACKEND_PORT__ w with
                  | Some p => if p =? 0 then defaultPort else p
                  | None => defaultPort
                  end in
      pageOrigin loc port
  end.

(** ** URLs (WHATWG URL Standard) *)

Module Url.

Inductive urlpath :=
| Opaque (s : jsstring)
| Segments (l : list jsstring).

(** A URL record; [host] is kept in its serialized form. *)
Record url := {
  scheme : jsstring;
  username : jsstring;
  password : jsstring;
  host : option jsstring;
  port : option Z;
  path : urlpath;
  query : option jsstring;
  fragment : option jsstring
}.

Definition serializePath (p : urlpath) : jsstring :=
  match p with
  | Opaque s => s
  | Segments l => List.concat (map (fun seg => 47%N :: seg) l)
  end.

Definition optPrefix (c : N) (o : option jsstring) : jsstring :=
  match o with Some s => c :: s | None => [] end.

Definition serializePort (p : option Z) : jsstring :=
  match p with Some n => 58%N :: decimal n | None => [] end.

(** The URL serializer: what [href] returns and what [fetch] requests. *)
Definition href (u : url) : jsstring :=
  scheme u ++ str ":"
  ++ match host u with
     | Some h =>
         str "//"
         ++ (if truthy (username u) || truthy (password u)
             then username u ++ optPrefix 58
                    (if truthy (password u) then Some (password u) else None)
                  ++ str "@"
             else [])
         ++ h ++ serializePort (port u)
     | None =>
         match path u with
         | Segments ([] :: _ :: _) => str "/."
         | _ => []
         end
     end
  ++ serializePath (path u)
  ++ optPrefix 63 (query u) ++ optPrefix 35 (fragment u).

Definition isTupleScheme (s : jsstring) : bool :=
  jseqb s (str "http") || jseqb s (str "https") || jseqb s (str "ws")
  || jseqb s (str "wss") || jseqb s (str "ftp").

(** Serialization of a tuple origin: scheme, host and, when the URL has a
    port (one that is not the default of its scheme), the port. *)
Definition tupleOrigin (u : url) : jsstring :=
  scheme u ++ str "://"
  ++ match host u with Some h => h | None => [] end
  ++ serializePort (port u).

End Url.

Import Url.

(** The platform functions the script calls and this development does not
    define: the [URL] constructor ([None] when it throws its TypeError), the
    message of that TypeError, and the serialized origin the platform gives
    a [file:] URL, which the URL Standard leaves to it (["null"] in some
    browsers, ["file://"] in others). *)
Class Platform := {
  URL_parse : jsstring -> option jsstring -> option url;
  URL_error : jsstring -> option jsstring -> jsstring;
  URL_fileOrigin : jsstring
}.

Section Resolver.
Context {platform : Platform}.

(** The [origin] getter: the serialized origin of the URL.  Only the five
    schemes of [isTupleScheme] have a tuple origin; the origin of a [file:]
    URL is the platform's; a [blob:] URL takes the origin of the [http(s)]
    or [file:] URL in its path; every other URL has an opaque origin, which
    serializes as ["null"]. *)
Definition origin (u : url) : jsstring :=
  if isTupleScheme (scheme u) then tupleOrigin u
  else if jseqb (scheme u) (str "file") then URL_fileOrigin
  else if jseqb (scheme u) (str "blob") then
    match URL_parse (serializePath (path u)) None with
    | Some inner =>
        if jseqb (scheme inner) (str "http") || jseqb (scheme inner) (str "https")
        then tupleOrigin inner
        else if jseqb (scheme inner) (str "file") then URL_fileOrigin
        else str "null"
    | None => str "null"
    end
  else str "null".

(** [normalizeUrl] ([app.js], lines 11-18) *)
Definition normalizeUrl (url : jsstring) : jsstring :=
  match URL_parse url None with
  | Some normalized => origin normalized
  | None => url
  end.

End Resolver.

(** ** Request pipeline ([app.js], lines 36-53) *)

(** A value [fetchFromBackend] resolves to.  The script looks at it only in
    [displayResult], through [typeof payload === 'string'] and
    [JSON.stringify(payload, null, 2)]; a value that is not a string is kept
    as that rendering. *)
Inductive jsvalue :=
| VString (s : jsstring)
| VStructured (rendering : jsstring).

(** How a promise settles; of an error only [message] is ever read. *)
Inductive settled :=
| Resolved (v : jsvalue)
| Rejected (message : jsstring).

(** A [Response], by what the script reads of it: [status], [statusText],
    [headers.get('content-type')] ([None] for [null]), what [text()]
    resolves to and how [json()] settles. *)
Record Response := {
  status : Z;
  statusText : jsstring;
  contentType : option jsstring;
  text : jsstring;
  json : settled
}.

(** [response.ok]: the status is in the range 200-299. *)
Definition ok (r : Response) : bool := (200 <=? status r) && (status r <=? 299).

(** How [fetch(url)] settles. *)
Inductive fetched :=
| NetworkError (message : jsstring)
| Responded (r : Response).

(** [fetchFromBackend] from the point where [await fetch(url)] resumes. *)
Definition fetchFromBackend_resume (o : fetched) : settled :=
  match o with
  | NetworkError message => Rejected message
  | Responded response =>
      if negb (ok response) then
        let message := text response in
        Rejected (integerToString (status response) ++ str " "
                  ++ statusText response ++ str ": " ++ message)
      else
        match contentType response with
        | Some ct =>
            if truthy ct && includes ct (str "application/json")
            then json response
            else Resolved (VString (text response))
        | None => Resolved (VString (text response))
        end
  end.

Section Pipeline.
Context {platform : Platform}.

(** [fetchFromBackend] up to [fetch(url)]: the URL to request, or the
    message of the TypeError of [new URL(path, backendBaseUrl)]. *)
Definition fetchFromBackend_start (base path : jsstring) : jsstring + url :=
  match URL_parse path (Some base) with
  | Some u => inr u
  | None => inl (URL_error path (Some base))
  end.

(** [fetchFromBackend(path)] against a network that answers the request for
    [href] with [network href]. *)
Definition fetchFromBackend (network : jsstring -> fetched)
    (base path : jsstring) : settled :=
  match fetchFromBackend_start base path with
  | inr u => fetchFromBackend_resume (network (href u))
  | inl message => Rejected message
  end.

End Pipeline.

(** ** The page: result elements and action handlers ([app.js], 29-94) *)

(** A result container: whether its class list has [error], and its text. *)
Record Element := { errorClass : bool; textContent : jsstring }.

Inductive Target := HealthResult | OpenItemsResult | ConsoleResult.

Definition Target_eqb (a b : Target) : bool :=
  match a, b with
  | HealthResult, HealthResult
  | OpenItemsResult, OpenItemsResult
  | ConsoleResult, ConsoleResult => true
  | _, _ => false
  end.

(** The elements the script touches.  [#backend-endpoint] and
    [#current-year] may be missing ([querySelector] gives [null], which the
    script tests); the buttons, forms and result containers are used
    unguarded and are taken to exist. *)
Record Dom := {
  backend_endpoint : option jsstring;
  current_year : option jsstring;
  health_result : Element;
  open_items_result : Element;
  console_result : Element
}.

Definition result (t : Target) (d : Dom) : Element :=
  match t with
  | HealthResult => health_result d
  | OpenItemsResult => open_items_result d
  | ConsoleResult => console_result d
  end.

Definition setResult (t : Target) (e : Element) (d : Dom) : Dom :=
  match t with
  | HealthResult =>
      {| backend_endpoint := backend_endpoint d; current_year := current_year d;
         health_result := e; open_items_result := open_items_result d;
         console_result := console_result d |}
  | OpenItemsResult =>
      {| backend_endpoint := backend_endpoint d; current_year := current_year d;
         health_result := health_result d; open_items_result := e;
         console_result := console_result d |}
  | ConsoleResult =>
      {| backend_endpoint := backend_endpoint d; current_year := current_year d;
         health_result := health_result d;
         open_items_result := open_items_result d; console_result := e |}
  end.

(** [displayResult(container, payload, isError)] *)
Definition displayResult (container : Target) (payload : jsvalue)
    (isError : bool) (d : Dom) : Dom :=
  setResult container
    {| errorClass := isError;
       textContent := match payload with
                      | VString s => s
                      | VStructured rendering => rendering
                      end |} d.

(** What the pipeline was asked and what went to the network. *)
Inductive Event :=
| Invoke (path : jsstring)
| Get (href : jsstring).

(** The page between two tasks of the event loop: the session's base URL,
    the document, the requests in flight with the container their handler
    writes to, and the calls and requests made so far. *)
Record Page := {
  base : jsstring;
  dom : Dom;
  inflight : list (Target * jsstring);
  trace : list Event
}.

Inductive Input :=
| ClickHealth
| SubmitOpenItems (value : jsstring)
| SubmitConsole (value : jsstring)
| Settle (i : nat) (o : fetched).

Definition loadingText : jsstring := str "Lade...".

(** ['Ungültige Organisation-ID.'] *)
Definition invalidOrganizationText : jsstring :=
  str "Ung" ++ [252%N] ++ str "ltige Organisation-ID.".

Fixpoint removeNth {A} (i : nat) (l : list A) : list A :=
  match i, l with
  | _, [] => []
  | O, _ :: r => r
  | S j, x :: r => x :: removeNth j r
  end.

Section Handlers.
Context {platform : Platform}.

(** The part the three handlers share, up to the suspension at the network
    request: the loading text, then [fetchFromBackend(path)].  When the URL
    constructor throws, the returned promise is already rejected and the
    handler's [catch] runs before any other task. *)
Definition startAction (t : Target) (path : jsstring) (pg : Page) : Page :=
  let d := displayResult t (VString loadingText) false (dom pg) in
  match fetchFromBackend_start (base pg) path with
  | inr u =>
      {| base := base pg; dom := d;
         inflight := inflight pg ++ [(t, href u)];
         trace := trace pg ++ [Invoke path; Get (href u)] |}
  | inl message =>
      {| base := base pg; dom := displayResult t (VString message) true d;
         inflight := inflight pg;
         trace := trace pg ++ [Invoke path] |}
  end.

(** The rest of a handler, once its request has settled. *)
Definition finishAction (t : Target) (o : fetched) (d : Dom) : Dom :=
  match fetchFromBackend_resume o with
  | Resolved data => displayResult t data false d
  | Rejected message => displayResult t (VString message) true d
  end.

Definition openItemsSubmit (value : jsstring) (pg : Page) : Page :=
  let organizationId := parseInt10 value in
  if negb (isFinite organizationId) then
    {| base := base pg;
       dom := displayResult OpenItemsResult (VString invalidOrganizationText)
                true (dom pg);
       inflight := inflight pg; trace := trace pg |}
  else
    startAction OpenItemsResult
      (str "/invoices/open?organization_id=" ++ numberToString organizationId)
      pg.

Definition consoleSubmit (value : jsstring) (pg : Page) : Page :=
  let pathInput := if truthy value then value else str "/" in
  startAction ConsoleResult pathInput pg.

(** One task of the event loop: a user action, or the settling of the
    [i]-th request in flight, where reading the body ([text()], [json()])
    is part of the settling. *)
Definition step (pg : Page) (inp : Input) : Page :=
  match inp with
  | ClickHealth => startAction HealthResult (str "/health") pg
  | SubmitOpenItems value => openItemsSubmit value pg
  | SubmitConsole value => consoleSubmit value pg
  | Settle i o =>
      match nth_error (inflight pg) i with
      | Some (t, _) =>
          {| base := base pg; dom := finishAction t o (dom pg);
             inflight := removeNth i (inflight pg); trace := trace pg |}
      | None => pg
      end
  end.

(** The script from its first line to [healthButton.click()], on the
    document [d] as parsed from the markup, in year [year]. *)
Definition init (w : Window) (loc : Location) (year : Z) (d : Dom) : Page :=
  let b := backendBaseUrl w loc in
  let d1 :=
    {| backend_endpoint := match backend_endpoint d with
                           | Some _ => Some (normalizeUrl b)
                           | None => None
                           end;
       current_year := match current_year d with
                       | Some _ => Some (integerToString year)
                       | None => None
                       end;
       health_result := health_result d;
       open_items_result := open_items_result d;
       console_result := console_result d |} in
  step {| base := b; dom := d1; inflight := []; trace := [] |} ClickHealth.

Definition run (pg : Page) (inputs : list Input) : Page :=
  fold_left step inputs pg.

End Handlers.

(** ** A reference platform

    The basic URL parser of the URL Standard, written out for the inputs
    that need no host conversion and no percent-encoding.  [Failure] and
    [Parsed] are the parser's answers; [Unmodelled] marks an input this
    development does not follow the standard on (credentials, IP-address,
    [xn--] or non-ASCII hosts, [file:] URLs, authorities of non-special
    schemes, code units that would be percent-encoded). *)

Module Whatwg.

Inductive parsed :=
| Parsed (u : url)
| Failure
| Unmodelled.

Fixpoint dropWhile (p : N -> bool) (s : jsstring) : jsstring :=
  match s with
  | c :: r => if p c then dropWhile p r else s
  | [] => []
  end.

Fixpoint break (p : N -> bool) (s : jsstring) : jsstring * jsstring :=
  match s with
  | [] => ([], [])
  | c :: r => if p c then ([], s) else let '(a, b) := break p r in (c :: a, b)
  end.

(** Strict splitting on a separator. *)
Fixpoint splitOn (sep : N) (s : jsstring) : list jsstring :=
  match s with
  | [] => [[]]
  | c :: r =>
      if N.eqb c sep then [] :: splitOn sep r
      else match splitOn sep r with
           | h :: t => (c :: h) :: t
           | [] => [[c]]
           end
  end.

Definition oneOf (set : jsstring) (c : N) : bool := existsb (N.eqb c) set.

Definition isC0OrSpace (c : N) : bool := (c <=? 32)%N.
Definition isTabOrNewline (c : N) : bool := oneOf [9; 10; 13]%N c.
Definition isUpper (c : N) : bool := ((65 <=? c) && (c <=? 90))%N.
Definition isAlpha (c : N) : bool := isUpper c || ((97 <=? c) && (c <=? 122))%N.
Definition lower (c : N) : N := if isUpper c then (c + 32)%N else c.

(** Leading and trailing C0 controls and spaces are stripped, tabs and
    newlines removed everywhere. *)
Definition preprocess (s : jsstring) : jsstring :=
  filter (fun c => negb (isTabOrNewline c))
    (rev (dropWhile isC0OrSpace (rev (dropWhile isC0OrSpace s)))).

(** Scheme start state and scheme state: a letter, then letters, digits,
    [+], [-], [.] up to a colon. *)
Fixpoint schemeState (s : jsstring) : option (jsstring * jsstring) :=
  match s with
  | [] => None
  | c :: r =>
      if N.eqb c 58 then Some ([], r)
      else if isAlpha c || isDigit c || oneOf (str "+-.") c then
        match schemeState r with
        | Some (sc, rest) => Some (lower c :: sc, rest)
        | None => None
        end
      else None
  end.

Definition splitScheme (s : jsstring) : option (jsstring * jsstring) :=
  match s with
  | c :: _ => if isAlpha c then schemeState s else None
  | [] => None
  end.

Definition defaultPortOf (sc : jsstring) : option Z :=
  if jseqb sc (str "http") || jseqb sc (str "ws") then Some 80
  else if jseqb sc (str "https") || jseqb sc (str "wss") then Some 443
  else if jseqb sc (str "ftp") then Some 21
  else None.

(** Code units that every state of the parser copies as they are. *)
Definition plain (c : N) : bool :=
  isAlpha c || isDigit c || oneOf (str "-._~:/?#=&+,;!$()*") c.

Definition hostChar (c : N) : bool :=
  isAlpha c || isDigit c || oneOf (str "-._") c.

(** The label the ends-in-a-number checker looks at. *)
Definition lastLabel (h : jsstring) : jsstring :=
  match rev (splitOn 46 h) with
  | [] :: l :: _ => l
  | l :: _ => l
  | [] => []
  end.

Definition modelledHost (h : jsstring) : bool :=
  forallb hostChar h
  && negb (match lastLabel h with c :: _ => isDigit c | [] => false end)
  && negb (includes (map lower h) (str "xn--"))
  && negb (startsWith (str ".") h) && negb (includes h (str "..")).

(** Path state: [acc] is the path so far, last segment first. *)
Fixpoint pathState (acc : list jsstring) (segs : list jsstring) : list jsstring :=
  match segs with
  | [] => rev acc
  | seg :: rest =>
      let isLast := match rest with [] => true | _ => false end in
      if jseqb seg (str "..") then
        pathState (if isLast then [] :: tl acc else tl acc) rest
      else if jseqb seg (str ".") then
        pathState (if isLast then [] :: acc else acc) rest
      else pathState (seg :: acc) rest
  end.

(** Path, query and fragment of what follows the authority. *)
Definition splitTail (t : jsstring)
  : jsstring * option jsstring * option jsstring :=
  let '(pq, f) := break (N.eqb 35) t in
  let '(p, q) := break (N.eqb 63) pq in
  (p, match q with [] => None | _ :: q' => Some q' end,
      match f with [] => None | _ :: f' => Some f' end).

(** Special authority (ignore) slashes, authority, host and port states. *)
Definition specialAuthority (sc rest : jsstring) : parsed :=
  let r := dropWhile (N.eqb 47) rest in
  let '(auth, tail) := break (oneOf (str "/?#")) r in
  let '(h, pp) := break (N.eqb 58) auth in
  match h with
  | [] => Failure
  | _ =>
      if negb (modelledHost h) then Unmodelled
      else
        let ps := tl pp in
        if negb (forallb isDigit ps) then Failure
        else if 65535 <? digitsValue ps then Failure
        else
          let pt := match ps with
                    | [] => None
                    | _ => match defaultPortOf sc with
                           | Some d => if d =? digitsValue ps then None
                                       else Some (digitsValue ps)
                           | None => Some (digitsValue ps)
                           end
                    end in
          let '(p, q, f) := splitTail tail in
          Parsed {| scheme := sc; username := []; password := [];
                    host := Some (map lower h); port := pt;
                    path := Segments (pathState [] (splitOn 47 (tl p)));
                    query := q; fragment := f |}
  end.

(** The parser on an input that has a scheme and is not resolved against a
    base. *)
Definition absolute (sc rest : jsstring) : parsed :=
  if negb (forallb plain rest) then Unmodelled
  else if jseqb sc (str "file") then Unmodelled
  else if isTupleScheme sc then specialAuthority sc rest
  else
    let '(p, q, f) := splitTail rest in
    match rest with
    | 47%N :: 47%N :: _ => Unmodelled
    | 47%N :: _ =>
        Parsed {| scheme := sc; username := []; password := [];
                  host := None; port := None;
                  path := Segments (pathState [] (splitOn 47 (tl p)));
                  query := q; fragment := f |}
    | _ =>
        Parsed {| scheme := sc; username := []; password := [];
                  host := None; port := None; path := Opaque p;
                  query := q; fragment := f |}
    end.

Definition withTail (b : url) (p : urlpath) (q f : option jsstring) : url :=
  {| scheme := scheme b; username := username b; password := password b;
     host := host b; port := port b; path := p; query := q; fragment := f |}.

(** No scheme state, relative state and relative slash state. *)
Definition relative (b : url) (s : jsstring) : parsed :=
  match path b with
  | Opaque _ =>
      match s with
      | 35%N :: f =>
          if forallb plain f then Parsed (withTail b (path b) (query b) (Some f))
          else Unmodelled
      | _ => Failure
      end
  | Segments bs =>
      if negb (isTupleScheme (scheme b)) then Unmodelled
      else if negb (forallb plain s) then Unmodelled
      else
        let '(p, q, f) := splitTail s in
        match s with
        | 47%N :: 47%N :: _ =>
            specialAuthority (scheme b) s
        | 47%N :: _ =>
            Parsed (withTail b (Segments (pathState [] (splitOn 47 (tl p)))) q f)
        | 63%N :: _ => Parsed (withTail b (path b) q f)
        | 35%N :: _ => Parsed (withTail b (path b) (query b) f)
        | [] => Parsed (withTail b (path b) (query b) None)
        | _ =>
            Parsed (withTail b
                      (Segments (pathState (rev (removelast bs)) (splitOn 47 p)))
                      q f)
        end
  end.

Definition parseAbsolute (input : jsstring) : parsed :=
  match splitScheme (preprocess input) with
  | Some (sc, rest) => absolute sc rest
  | None => Failure
  end.

(** [new URL(input)] and [new URL(input, base)]. *)
Definition parse (input : jsstring) (base : option jsstring) : parsed :=
  match base with
  | None => parseAbsolute input
  | Some b =>
      match parseAbsolute b with
      | Failure => Failure
      | Unmodelled => Unmodelled
      | Parsed bu =>
          match splitScheme (preprocess input) with
          | Some (sc, rest) =>
              if (isTupleScheme sc || jseqb sc (str "file"))
                 && jseqb sc (scheme bu) && negb (startsWith (str "//") rest)
              then Unmodelled
              else absolute sc rest
          | None => relative bu (preprocess input)
          end
      end
  end.

End Whatwg.

(** The reference platform answers as [Whatwg.parse] does where that is
    [Parsed] or [Failure]; it is used for the concrete examples only, all of
    them on inputs where [Whatwg.parse] is not [Unmodelled]. *)
#[local] Instance reference : Platform := {|
  URL_parse input base :=
    match Whatwg.parse input base with
    | Whatwg.Parsed u => Some u
    | _ => None
    end;
  URL_error _ _ := str "Invalid URL";
  URL_fileOrigin := str "null"
|}.

(** ** Vocabulary of the properties *)

(** After an optional sign the string begins with a decimal digit. *)
Definition startsWithInteger (s : jsstring) : bool :=
  match s with
  | c :: r =>
      if N.eqb c 45 || N.eqb c 43
      then match r with d :: _ => isDigit d | [] => false end
      else isDigit c
  | [] => false
  end.

(** The whole string is a decimal integer: an optional sign, then digits
    and nothing else. *)
Definition denotesInteger (s : jsstring) : bool :=
  let body := match s with
              | c :: r => if N.eqb c 45 || N.eqb c 43 then r else s
              | [] => []
              end in
  truthy body && forallb isDigit body.

(** The placeholder markers of the two inputs. *)
Definition urlMarker : jsstring := placeholder (str "BACKEND_URL").
Definition portMarker : jsstring := placeholder (str "BACKEND_PORT").

(** The URL record does not hold the default port of its scheme. *)
Definition portNotDefault (u : url) : Prop :=
  forall d, Whatwg.defaultPortOf (scheme u) = Some d -> port u <> Some d.

(** The rule of the port state of the URL Standard: the URL constructor
    keeps no port that is the default of the URL's scheme. *)
Definition dropsDefaultPort (P : Platform) : Prop :=
  forall input base u, URL_parse input base = Some u -> portNotDefault u.

(** The action an input belongs to: the action it triggers, or the action
    whose request it settles. *)
Definition owner (pg : Page) (inp : Input) : option Target :=
  match inp with
  | ClickHealth => Some HealthResult
  | SubmitOpenItems _ => Some OpenItemsResult
  | SubmitConsole _ => Some ConsoleResult
  | Settle i _ => option_map fst (nth_error (inflight pg) i)
  end.

Definition isTrigger (inp : Input) : bool :=
  match inp with Settle _ _ => false | _ => true end.

(** The requests in flight of one action. *)
Definition requestsOf (t : Target) (l : list (Target * jsstring))
  : list (Target * jsstring) :=
  filter (fun r => Target_eqb (fst r) t) l.

(** The paths [fetchFromBackend] was called with, and the URLs requested. *)
Definition invocations (tr : list Event) : list jsstring :=
  flat_map (fun e => match e with Invoke p => [p] | Get _ => [] end) tr.


(** The path a trigger calls the pipeline with, if it calls it. *)
Definition requestedPath (inp : Input) : option jsstring :=
  match inp with
  | ClickHealth => Some (str "/health")
  | SubmitOpenItems value =>
      match parseInt10 value with
      | Finite n => Some (str "/invoices/open?organization_id=" ++ integerToString n)
      | _ => None
      end
  | SubmitConsole value => Some (if truthy value then value else str "/")
  | Settle _ _ => None
  end.

Section Emitted.
Context {platform : Platform}.

(** What one call [fetchFromBackend(path)] adds to the trace, and the
    request it leaves in flight. *)
Definition emitted (b path : jsstring) : list Event :=
  Invoke path :: match URL_parse path (Some b) with
                 | Some u => [Get (href u)]
                 | None => []
                 end.

Definition issued (t : Target) (b path : jsstring) : list (Target * jsstring) :=
  match URL_parse path (Some b) with
  | Some u => [(t, href u)]
  | None => []
  end.

End Emitted.

(** Sample responses and a sample page for the concrete cases. *)
Definition notFound : Response :=
  {| status := 404; statusText := str "Not Found";
     contentType := Some (str "text/plain; charset=utf-8");
     text := str "not found";
     json := Rejected (str "Unexpected token o in JSON at position 1") |}.

(** The body [{"status":"ok"}] and the rendering of its value with an
    indentation of two spaces. *)
Definition healthOk : Response :=
  {| status := 200; statusText := str "OK";
     contentType := Some (str "application/json");
     text := str "{" ++ [34%N] ++ str "status" ++ [34%N] ++ str ":"
             ++ [34%N] ++ str "ok" ++ [34%N] ++ str "}";
     json := Resolved (VStructured
               (str "{" ++ [10%N] ++ str "  " ++ [34%N] ++ str "status"
                ++ [34%N] ++ str ": " ++ [34%N] ++ str "ok" ++ [34%N]
                ++ [10%N] ++ str "}")) |}.

Definition plainOk : Response :=
  {| status := 200; statusText := str "OK";
     contentType := Some (str "text/plain");
     text := str "pong";
     json := Rejected (str "Unexpected token p in JSON at position 0") |}.

(** A 200 response that declares JSON and has an empty body, on which
    [json()] rejects. *)
Definition emptyJson : Response :=
  {| status := 200; statusText := str "OK";
     contentType := Some (str "application/json");
     text := [];
     json := Rejected (str "Unexpected end of JSON input") |}.

(** A 200 response of a JSON type that is not [application/json]. *)
Definition problemJson : Response :=
  {| status := 200; statusText := str "OK";
     contentType := Some (str "application/problem+json");
     text := text healthOk;
     json := json healthOk |}.

Definition emptyElement : Element := {| errorClass := false; textContent := [] |}.

Definition sampleDom : Dom :=
  {| backend_endpoint := Some []; current_year := Some [];
     health_result := emptyElement; open_items_result := emptyElement;
     console_result := emptyElement |}.

Definition samplePage : Page :=
  {| base := str "http://localhost:8000"; dom := sampleDom;
     inflight := []; trace := [] |}.

Definition localHealthUrl : url :=
  {| scheme := str "http"; username := []; password := [];
     host := Some (str "localhost"); port := Some 8000;
     path := Segments [str "health"]; query := None; fragment := None |}.


(** The first and the last code unit are not white space. *)
Definition edgesNonSpace (s : jsstring) : bool :=
  match s with c :: _ => negb (isWhiteSpace c) | [] => false end
  && match rev s with c :: _ => negb (isWhiteSpace c) | [] => false end.

(** The string does not go on with a digit. *)
Definition noDigitHead (s : jsstring) : bool :=
  match s with c :: _ => negb (isDigit c) | [] => true end.

(** What a container shows for a settled pipeline call. *)
Definition shown (s : settled) : Element :=
  match s with
  | Resolved (VString t) => {| errorClass := false; textContent := t |}
  | Resolved (VStructured rendering) =>
      {| errorClass := false; textContent := rendering |}
  | Rejected message => {| errorClass := true; textContent := message |}
  end.

(** The test [fetchFromBackend] makes on the content type. *)
Definition declaresJson (r : Response) : bool :=
  match contentType r with
  | Some ct => truthy ct && includes ct (str "application/json")
  | None => false
  end.

Section Runs.
Context {platform : Platform}.

(** No input of the run belongs to [t]. *)
Fixpoint untouched (t : Target) (pg : Page) (inputs : list Input) : Prop :=
  match inputs with
  | [] => True
  | inp :: rest => owner pg inp <> Some t /\ untouched t (step pg inp) rest
  end.

End Runs.

(** An input that triggers the action of [t]. *)
Definition triggers (t : Target) (inp : Input) : bool :=
  match inp, t with
  | ClickHealth, HealthResult
  | SubmitOpenItems _, OpenItemsResult
  | SubmitConsole _, ConsoleResult => true
  | _, _ => false
  end.


(** ** Container start-up ([docker-entrypoint.sh]) *)

Module Entrypoint.

(** The two variables as the container's environment gives them; [None] is
    a variable that is not set. *)
Record Environment := {
  BACKEND_URL : option jsstring;
  BACKEND_PORT : option jsstring
}.

(** A shell variable: its value, and whether the commands the shell starts
    find it in their environment. *)
Record shellvar := { value : jsstring; exported : bool }.

(** [: "${NAME:=default}"].  A variable of the environment is exported and
    keeps its value, or takes the default when its value is empty; a
    variable that was not set is created with the default, and a variable
    the script creates is not exported. *)
Definition assignDefault (env : option jsstring) (default : jsstring) : shellvar :=
  match env with
  | Some (c :: v) => {| value := c :: v; exported := true |}
  | Some [] => {| value := default; exported := true |}
  | None => {| value := default; exported := false |}
  end.

(** What [envsubst] writes for [${NAME}]: the value in its environment, and
    nothing for a variable that is not there. *)
Definition substituted (v : shellvar) : jsstring :=
  if exported v then value v else [].

(** Text that stands for itself between the quotes of a string literal:
    printable ASCII without the quote and the backslash. *)
Definition literalSafe (v : jsstring) : bool :=
  forallb (fun c => (32 <=? c) && (c <? 127) && negb (c =? 39) && negb (c =? 92))%N v.

(** The values of the two string literals of the [env.js] that
    [envsubst] writes from the template; [None] when a substituted text
    does not stay inside its literal. *)
Definition literals (env : Environment) : option (jsstring * jsstring) :=
  let url := substituted (assignDefault (BACKEND_URL env) []) in
  let port := substituted (assignDefault (BACKEND_PORT env) (str "8000")) in
  if literalSafe url && literalSafe port then Some (url, port) else None.

(** The configuration the page finds once [env.js] has run. *)
Definition runtimeConfig (env : Environment) : option Window :=
  match literals env with
  | Some (url, port) => Some (configureRuntimeEnv url port)
  | None => None
  end.

End Entrypoint.

(** Pages with requests in flight, for the concrete cases. *)
Definition doubleHealthPage : Page :=
  @step reference (@step reference samplePage ClickHealth) ClickHealth.

Definition openItemsBusyPage : Page :=
  @step reference samplePage (SubmitOpenItems (str "5")).

Definition readmeEnvironment : Entrypoint.Environment :=
  {| Entrypoint.BACKEND_URL := Some (str "https://mein-backend.example");
     Entrypoint.BACKEND_PORT := Some (str "443") |}.

Definition bareEnvironment : Entrypoint.Environment :=
  {| Entrypoint.BACKEND_URL := None; Entrypoint.BACKEND_PORT := None |}.

Definition portalLocation : Location :=
  {| protocol := str "https:"; hostname := str "portal.example" |}.

(** ** Examples *)

Example ex_trim : trim (str "  ${BACKEND_URL} ") = str "${BACKEND_URL}".
Proof. reflexivity. Qed.
Example ex_parse1 : parseInt10 (str "9000") = Finite 9000.
Proof. reflexivity. Qed.
Example ex_parse2 : parseInt10 (str "80abc") = Finite 80.
Proof. reflexivity. Qed.
Example ex_parse3 : parseInt10 (str "abc") = NaN.
Proof. reflexivity. Qed.
Example ex_parse4 : parseInt10 (str " -12.5") = Finite (-12).
Proof. reflexivity. Qed.
Example ex_parse5 : parseInt10 (str "9007199254740993") = Finite 9007199254740992.
Proof. reflexivity. Qed.
Example ex_parse6 : parseInt10 (repeat 57%N 400) = Infinity false.
Proof. vm_compute. reflexivity. Qed.
Example ex_ts1 : integerToString 9000 = str "9000".
Proof. vm_compute. reflexivity. Qed.
Example ex_ts2 : integerToString (2 ^ 64) = str "18446744073709552000".
Proof. vm_compute. reflexivity. Qed.
Example ex_ts3 : integerToString (2 ^ 70) = str "1.1805916207174113e+21".
Proof. vm_compute. reflexivity. Qed.
Example ex_ts4 : numberToString (toNumber (10 ^ 23)) = str "1e+23".
Proof. vm_compute. reflexivity. Qed.
Example ex_ts5 : integerToString (-443) = str "-443".
Proof. vm_compute. reflexivity. Qed.
Example ex_cfg1 :
  configureRuntimeEnv (str " ${BACKEND_URL} ") (str "${BACKEND_PORT}") = emptyWindow.
Proof. reflexivity. Qed.
Example ex_cfg2 :
  configureRuntimeEnv (str "") (str "9000")
  = {| __BACKEND_URL__ := None; __BACKEND_PORT__ := Some 9000 |}.
Proof. reflexivity. Qed.
Example ex_base1 :
  backendBaseUrl (configureRuntimeEnv (str "") (str "9000"))
    {| protocol := str "https:"; hostname := str "portal.example" |}
  = str "https://portal.example:9000".
Proof. vm_compute. reflexivity. Qed.
Example ex_base2 :
  backendBaseUrl (configureRuntimeEnv (str "") (str "0"))
    {| protocol := str "https:"; hostname := str "portal.example" |}
  = str "https://portal.example:8000".
Proof. vm_compute. reflexivity. Qed.
Example ex_url1 :
  option_map href (URL_parse (str "https://api.example:443/x?y=1") None)
  = Some (str "https://api.example/x?y=1").
Proof. vm_compute. reflexivity. Qed.
Example ex_url2 : Whatwg.parse (str "not a url") None = Whatwg.Failure.
Proof. vm_compute. reflexivity. Qed.
Example ex_url3 :
  option_map href (URL_parse (str "/health") (Some (str "https://portal.example:9000")))
  = Some (str "https://portal.example:9000/health").
Proof. vm_compute. reflexivity. Qed.
Example ex_url4 :
  option_map href (URL_parse (str "../b/./c?x#y") (Some (str "HTTP://Portal.Example:80/a/d/e")))
  = Some (str "http://portal.example/a/b/c?x#y").
Proof. vm_compute. reflexivity. Qed.
Example ex_url5 : Whatwg.parse (str "/health") (Some (str "backend:8000")) = Whatwg.Failure.
Proof. vm_compute. reflexivity. Qed.
Example ex_url6 : normalizeUrl (str "https://api.example:443/x?y=1") = str "https://api.example".
Proof. vm_compute. reflexivity. Qed.
Example ex_url7 : normalizeUrl (str "mailto:ops") = str "null".
Proof. vm_compute. reflexivity. Qed.
Example ex_url8 : normalizeUrl (str "https://api.example:8443/x?y=1") = str "https://api.example:8443".
Proof. vm_compute. reflexivity. Qed.
Example ex_url9 :
  option_map href (URL_parse (str "/invoices/open?organization_id=5") (Some (str "http://localhost:8000")))
  = Some (str "http://localhost:8000/invoices/open?organization_id=5").
Proof. vm_compute. reflexivity. Qed.

(** ** Lemmas on strings *)

Lemma jseqb_eq (a b : jsstring) : jseqb a b = true <-> a = b.
Proof.
  revert b; induction a as [|x a IH]; intros [|y b]; simpl; split;
    try congruence; try reflexivity.
  - intros H. apply andb_true_iff in H as [Hx Hr].
    apply N.eqb_eq in Hx. apply IH in Hr. congruence.
  - intros H. injection H as -> ->. rewrite N.eqb_refl. simpl. now apply IH.
Qed.

Lemma jseqb_neq (a b : jsstring) : jseqb a b = false <-> a <> b.
Proof.
  split.
  - intros H E. apply jseqb_eq in E. congruence.
  - intros H. destruct (jseqb a b) eqn:E; [|reflexivity].
    apply jseqb_eq in E. contradiction.
Qed.

Lemma truthy_true (s : jsstring) : truthy s = true <-> s <> [].
Proof. destruct s; simpl; split; congruence. Qed.

Lemma startsWith_app (p s : jsstring) : startsWith p (p ++ s) = true.
Proof.
  induction p as [|c p IH]; simpl; [reflexivity|].
  now rewrite N.eqb_refl, IH.
Qed.

Lemma includes_app (a b c : jsstring) : includes (a ++ b ++ c) b = true.
Proof.
  induction a as [|x a IH]; simpl.
  - destruct (b ++ c) eqn:E; simpl.
    + destruct b; [reflexivity|discriminate].
    + rewrite <- E, startsWith_app. reflexivity.
  - rewrite IH. apply orb_true_r.
Qed.

Lemma includes_prefix (b c : jsstring) : includes (b ++ c) b = true.
Proof. exact (includes_app [] b c). Qed.

Lemma includes_suffix (a b : jsstring) : includes (a ++ b) b = true.
Proof. rewrite <- (app_nil_r b) at 1. apply includes_app. Qed.

(** [trimStart] drops a prefix, and what it leaves does not begin with
    white space. *)
Lemma trimStart_suffix (s : jsstring) : exists pre, s = pre ++ trimStart s.
Proof.
  induction s as [|c s [pre IH]]; simpl.
  - now exists [].
  - destruct (isWhiteSpace c).
    + exists (c :: pre). simpl. now f_equal.
    + now exists [].
Qed.

Lemma trimStart_head (s : jsstring) (c : N) (r : jsstring) :
  trimStart s = c :: r -> isWhiteSpace c = false.
Proof.
  induction s as [|x s IH]; simpl; [discriminate|].
  destruct (isWhiteSpace x) eqn:E; [exact IH|].
  intros H. injection H as -> _. exact E.
Qed.

Lemma trimEnd_prefix (s : jsstring) : exists suf, s = trimEnd s ++ suf.
Proof.
  unfold trimEnd. destruct (trimStart_suffix (rev s)) as [pre H].
  exists (rev pre). rewrite <- rev_app_distr, <- H. symmetry. apply rev_involutive.
Qed.

Lemma trim_head (s : jsstring) (c : N) (r : jsstring) :
  trim s = c :: r -> isWhiteSpace c = false.
Proof.
  unfold trim. intros H.
  destruct (trimEnd_prefix (trimStart s)) as [suf E].
  rewrite H in E. simpl in E. exact (trimStart_head _ _ _ E).
Qed.

Lemma trimStart_trim (s : jsstring) : trimStart (trim s) = trim s.
Proof.
  destruct (trim s) as [|c r] eqn:E; [reflexivity|].
  simpl. now rewrite (trim_head _ _ _ E).
Qed.

(** ** Lemmas on [parseInt] *)

Lemma toNumber_not_NaN (z : Z) : toNumber z <> NaN.
Proof. unfold toNumber. destruct (_ <=? _); discriminate. Qed.

Lemma digitsPrefix_nil (s : jsstring) :
  digitsPrefix s = [] <-> match s with d :: _ => isDigit d | [] => false end = false.
Proof.
  destruct s as [|d r]; simpl; [tauto|].
  destruct (isDigit d); split; congruence.
Qed.

Lemma parseInt10_NaN (s : jsstring) :
  parseInt10 s = NaN <-> startsWithInteger (trimStart s) = false.
Proof.
  unfold parseInt10, startsWithInteger.
  destruct (trimStart s) as [|c r]; [simpl; tauto|].
  destruct (N.eqb c 45) eqn:E45; simpl.
  - rewrite <- digitsPrefix_nil.
    destruct (digitsPrefix r); split; try congruence; try reflexivity.
    intros H. now apply toNumber_not_NaN in H.
  - destruct (N.eqb c 43) eqn:E43; simpl.
    + rewrite <- digitsPrefix_nil.
      destruct (digitsPrefix r); split; try congruence; try reflexivity.
      intros H. now apply toNumber_not_NaN in H.
    + destruct (isDigit c); split; try congruence; try reflexivity.
      intros H. now apply toNumber_not_NaN in H.
Qed.

Lemma parseInt10_Finite_starts (s : jsstring) (n : Z) :
  parseInt10 s = Finite n -> startsWithInteger (trimStart s) = true.
Proof.
  intros H. destruct (startsWithInteger (trimStart s)) eqn:E; [reflexivity|].
  apply parseInt10_NaN in E. congruence.
Qed.

Lemma roundSignificand_lower (m : Z) :
  0 < m -> 2 ^ Z.log2 m <= roundSignificand m.
Proof.
  intros Hm. unfold roundSignificand.
  destruct (Z.log2_spec m Hm) as [Hlo Hhi].
  destruct (m <? 2 ^ 53) eqn:E; [exact Hlo|].
  apply Z.ltb_ge in E.
  assert (H53 : 53 <= Z.log2 m).
  { apply Z.log2_le_mono in E. rewrite Z.log2_pow2 in E; lia. }
  set (e := Z.log2 m - 52).
  assert (He : 0 <= e) by (unfold e; lia).
  set (q := Z.shiftr m e).
  assert (Hq : 2 ^ 52 <= q).
  { unfold q. rewrite Z.shiftr_div_pow2 by exact He.
    replace (2 ^ 52) with (2 ^ Z.log2 m / 2 ^ e).
    - apply Z.div_le_mono; [apply Z.pow_pos_nonneg; lia | exact Hlo].
    - replace (Z.log2 m) with (52 + e) by (unfold e; lia).
      rewrite Z.pow_add_r by lia. apply Z.div_mul.
      apply Z.pow_nonzero; lia. }
  match goal with |- _ <= Z.shiftl ?x e => assert (Hx : q <= x) end.
  { destruct (_ <? _); [lia|]. destruct (_ <? _); [lia|]. destruct (Z.even q); lia. }
  rewrite Z.shiftl_mul_pow2 by exact He.
  replace (2 ^ Z.log2 m) with (2 ^ 52 * 2 ^ e).
  - apply Z.mul_le_mono_nonneg_r; [apply Z.pow_nonneg|]; lia.
  - rewrite <- Z.pow_add_r by lia. f_equal. unfold e. lia.
Qed.

(** An integer of [2^1024] or more has no finite Number. *)
Lemma toNumber_overflow (z : Z) : 2 ^ 1024 <= z -> toNumber z = Infinity false.
Proof.
  intros H. unfold toNumber.
  assert (Hpos : 0 < z) by (pose proof (Z.pow_pos_nonneg 2 1024); lia).
  rewrite Z.abs_eq by lia.
  pose proof (roundSignificand_lower z Hpos) as Hr.
  assert (Hl : 2 ^ 1024 <= 2 ^ Z.log2 z).
  { apply Z.pow_le_mono_r; [lia|].
    apply Z.log2_le_mono in H. rewrite Z.log2_pow2 in H; lia. }
  replace (2 ^ 1024 <=? roundSignificand z) with true
    by (symmetry; apply Z.leb_le; lia).
  replace (z <? 0) with false by (symmetry; apply Z.ltb_ge; lia).
  reflexivity.
Qed.

Lemma isDigit_not_space (c : N) : isDigit c = true -> isWhiteSpace c = false.
Proof.
  unfold isDigit, isWhiteSpace. intros H.
  apply andb_true_iff in H as [H1 H2].
  apply N.leb_le in H1. apply N.leb_le in H2.
  repeat (apply orb_false_iff; split);
    try (apply N.eqb_neq; lia);
    apply andb_false_iff; first [left; apply N.leb_gt; lia | right; apply N.leb_gt; lia].
Qed.

Lemma digitsPrefix_all (ds : jsstring) :
  forallb isDigit ds = true -> digitsPrefix ds = ds.
Proof.
  induction ds as [|c ds IH]; simpl; [reflexivity|].
  intros H. apply andb_true_iff in H as [Hc Hr].
  now rewrite Hc, IH.
Qed.

(** A string of digits reads as the Number of its value. *)
Lemma parseInt10_digits (ds : jsstring) :
  ds <> [] -> forallb isDigit ds = true ->
  parseInt10 ds = toNumber (digitsValue ds).
Proof.
  intros Hne Hall. destruct ds as [|c r]; [congruence|].
  pose proof Hall as Hall'. simpl in Hall. apply andb_true_iff in Hall as [Hc Hr].
  unfold parseInt10. simpl trimStart. rewrite (isDigit_not_space c Hc).
  assert (E45 : N.eqb c 45 = false).
  { apply N.eqb_neq. intros ->. discriminate. }
  assert (E43 : N.eqb c 43 = false).
  { apply N.eqb_neq. intros ->. discriminate. }
  rewrite E45, E43. rewrite (digitsPrefix_all _ Hall'). reflexivity.
Qed.

(** ** Environment Injector: properties *)

Lemma injected_url_spec (urlLiteral portLiteral u : jsstring) :
  __BACKEND_URL__ (configureRuntimeEnv urlLiteral portLiteral) = Some u
  <-> u = trim urlLiteral /\ u <> [] /\ u <> urlMarker.
Proof.
  unfold configureRuntimeEnv; simpl. fold urlMarker.
  destruct (truthy (trim urlLiteral)) eqn:T;
    destruct (jseqb (trim urlLiteral) urlMarker) eqn:M; simpl.
  - apply jseqb_eq in M. split; [discriminate|]. intros (-> & _ & H). contradiction.
  - apply jseqb_neq in M. apply truthy_true in T. split.
    + intros H. injection H as <-. auto.
    + intros (-> & _). reflexivity.
  - split; [discriminate|]. intros (-> & H & _).
    apply truthy_true in H. congruence.
  - split; [discriminate|]. intros (-> & H & _).
    apply truthy_true in H. congruence.
Qed.

Lemma injected_port_spec (urlLiteral portLiteral : jsstring) (p : Z) :
  __BACKEND_PORT__ (configureRuntimeEnv urlLiteral portLiteral) = Some p
  <-> trim portLiteral <> [] /\ trim portLiteral <> portMarker
      /\ parseInt10 (trim portLiteral) = Finite p.
Proof.
  unfold configureRuntimeEnv; simpl. fold portMarker.
  destruct (truthy (trim portLiteral)) eqn:T;
    destruct (jseqb (trim portLiteral) portMarker) eqn:M; simpl.
  - apply jseqb_eq in M. split; [discriminate|]. intros (_ & H & _). contradiction.
  - apply jseqb_neq in M. apply truthy_true in T.
    destruct (parseInt10 (trim portLiteral)); split;
      try discriminate; try (intros (_ & _ & H); discriminate).
    + intros H. injection H as ->. auto.
    + intros (_ & _ & H). congruence.
  - split; [discriminate|]. intros (H & _). apply truthy_true in H. congruence.
  - split; [discriminate|]. intros (H & _). apply truthy_true in H. congruence.
Qed.

(** C3: an input that is empty or the placeholder marker after trimming
    leaves its field absent; a stored URL is the trimmed input, differs from
    the marker and is not the empty string; a stored port comes from an
    input that differs from the marker and parses to a finite number. *)
Theorem placeholder_or_empty_input_leaves_field_absent
    (urlLiteral portLiteral : jsstring) :
  (trim urlLiteral = [] \/ trim urlLiteral = urlMarker ->
   __BACKEND_URL__ (configureRuntimeEnv urlLiteral portLiteral) = None)
  /\ (trim portLiteral = [] \/ trim portLiteral = portMarker ->
      __BACKEND_PORT__ (configureRuntimeEnv urlLiteral portLiteral) = None)
  /\ (forall u,
        __BACKEND_URL__ (configureRuntimeEnv urlLiteral portLiteral) = Some u ->
        u = trim urlLiteral /\ u <> urlMarker /\ u <> [])
  /\ (forall p,
        __BACKEND_PORT__ (configureRuntimeEnv urlLiteral portLiteral) = Some p ->
        trim portLiteral <> portMarker /\ trim portLiteral <> []
        /\ parseInt10 (trim portLiteral) = Finite p
        /\ isFinite (parseInt10 (trim portLiteral)) = true).
Proof.
  repeat split.
  - intros H.
    destruct (__BACKEND_URL__ (configureRuntimeEnv urlLiteral portLiteral))
      as [u|] eqn:E; [|reflexivity].
    apply injected_url_spec in E as (-> & Hne & Hm). tauto.
  - intros H.
    destruct (__BACKEND_PORT__ (configureRuntimeEnv urlLiteral portLiteral))
      as [p|] eqn:E; [|reflexivity].
    apply injected_port_spec in E as (Hne & Hm & _). tauto.
  - now apply injected_url_spec in H.
  - now apply injected_url_spec in H.
  - now apply injected_url_spec in H.
  - now apply injected_port_spec in H.
  - now apply injected_port_spec in H.
  - now apply injected_port_spec in H.
  - apply injected_port_spec in H as (_ & _ & ->). reflexivity.
Qed.

Lemma placeholder_or_empty_input_witness :
  __BACKEND_URL__
    (configureRuntimeEnv (str "  ${BACKEND_URL} ") (str "${BACKEND_PORT}")) = None
  /\ __BACKEND_PORT__
       (configureRuntimeEnv (str "  ${BACKEND_URL} ") (str "${BACKEND_PORT}")) = None.
Proof.
  split.
  - apply (proj1 (placeholder_or_empty_input_leaves_field_absent
                    (str "  ${BACKEND_URL} ") (str "${BACKEND_PORT}"))).
    right. reflexivity.
  - apply (proj1 (proj2 (placeholder_or_empty_input_leaves_field_absent
                    (str "  ${BACKEND_URL} ") (str "${BACKEND_PORT}")))).
    right. reflexivity.
Defined.

(** C2, the claim as stated fails: ["80abc"] is not a number as a whole, yet
    the injector publishes port 80 for it. *)
Lemma port_with_trailing_text_is_published :
  denotesInteger (trim (str "80abc")) = false
  /\ __BACKEND_PORT__ (configureRuntimeEnv [] (str "80abc")) = Some 80.
Proof. split; reflexivity. Qed.

(** C2, amended: the port stays absent for every input that, after
    trimming, does not begin with an optionally signed decimal digit, and
    for every input whose leading integer is not a finite Number (such as a
    digit string of value [2^1024] or more); a published port is the finite
    value of the leading integer of the input, whatever follows it; and with
    both fields absent the resolver uses port 8000. *)
Theorem port_published_only_for_finite_leading_integer
    (urlLiteral portLiteral : jsstring) :
  (startsWithInteger (trim portLiteral) = false ->
   __BACKEND_PORT__ (configureRuntimeEnv urlLiteral portLiteral) = None)
  /\ (isFinite (parseInt10 (trim portLiteral)) = false ->
      __BACKEND_PORT__ (configureRuntimeEnv urlLiteral portLiteral) = None)
  /\ (forallb isDigit (trim portLiteral) = true ->
      2 ^ 1024 <= digitsValue (trim portLiteral) ->
      __BACKEND_PORT__ (configureRuntimeEnv urlLiteral portLiteral) = None)
  /\ (forall p,
        __BACKEND_PORT__ (configureRuntimeEnv urlLiteral portLiteral) = Some p ->
        startsWithInteger (trim portLiteral) = true
        /\ parseInt10 (trim portLiteral) = Finite p)
  /\ (forall loc,
        __BACKEND_URL__ (configureRuntimeEnv urlLiteral portLiteral) = None ->
        __BACKEND_PORT__ (configureRuntimeEnv urlLiteral portLiteral) = None ->
        backendBaseUrl (configureRuntimeEnv urlLiteral portLiteral) loc
        = protocol loc ++ str "//" ++ hostname loc ++ str ":8000").
Proof.
  assert (Habs : isFinite (parseInt10 (trim portLiteral)) = false ->
                 __BACKEND_PORT__ (configureRuntimeEnv urlLiteral portLiteral) = None).
  { intros H.
    destruct (__BACKEND_PORT__ (configureRuntimeEnv urlLiteral portLiteral))
      as [p|] eqn:E; [|reflexivity].
    apply injected_port_spec in E as (_ & _ & E). rewrite E in H. discriminate. }
  split; [|split; [|split; [|split]]].
  - intros H. apply Habs.
    rewrite <- trimStart_trim in H. apply parseInt10_NaN in H. now rewrite H.
  - exact Habs.
  - intros Hd Hbig. apply Habs.
    destruct (trim portLiteral) as [|c r] eqn:E.
    + exfalso. cbv in Hbig. apply Hbig. reflexivity.
    + rewrite parseInt10_digits; [|discriminate|exact Hd].
      now rewrite toNumber_overflow.
  - intros p H. apply injected_port_spec in H as (_ & _ & H). split; [|exact H].
    apply parseInt10_Finite_starts in H. now rewrite trimStart_trim in H.
  - intros loc HU HP. unfold backendBaseUrl. rewrite HU, HP. reflexivity.
Qed.

Lemma port_published_witness :
  __BACKEND_PORT__ (configureRuntimeEnv [] (str "http")) = None
  /\ __BACKEND_PORT__ (configureRuntimeEnv [] (repeat 57%N 400)) = None.
Proof.
  split.
  - apply (proj1 (port_published_only_for_finite_leading_integer [] (str "http"))).
    reflexivity.
  - apply (proj1 (proj2 (port_published_only_for_finite_leading_integer
                           [] (repeat 57%N 400)))).
    vm_compute. reflexivity.
Defined.

(** ** Endpoint Resolver: properties *)

(** C1, the claim as stated fails: with no URL and an injected port 0 (the
    injector stores it for the input ["0"]) the resolver does not use port 0
    but the default 8000. *)
Lemma injected_port_zero_falls_back_to_default :
  let w := configureRuntimeEnv [] (str "0") in
  let loc := {| protocol := str "https:"; hostname := str "portal.example" |} in
  __BACKEND_URL__ w = None /\ __BACKEND_PORT__ w = Some 0
  /\ backendBaseUrl w loc = str "https://portal.example:8000"
  /\ backendBaseUrl w loc
     <> protocol loc ++ str "//" ++ hostname loc ++ str ":" ++ integerToString 0.
Proof. vm_compute. repeat split; discriminate. Qed.

(** C1, amended: the resolver is a function of the two configuration slots
    and of the page's protocol and hostname.  A present, non-empty
    [backendUrl] is returned unchanged; otherwise the result is
    protocol + "//" + hostname + ":" + port, where port is the injected
    [backendPort] when it is present and not 0, and 8000 when it is absent
    or 0. *)
Theorem backendBaseUrl_precedence (w : Window) (loc : Location) :
  (forall u, __BACKEND_URL__ w = Some u -> u <> [] -> backendBaseUrl w loc = u)
  /\ (forall p,
        __BACKEND_URL__ w = None -> __BACKEND_PORT__ w = Some p -> p <> 0 ->
        backendBaseUrl w loc
        = protocol loc ++ str "//" ++ hostname loc ++ str ":" ++ integerToString p)
  /\ (__BACKEND_URL__ w = None ->
      __BACKEND_PORT__ w = None \/ __BACKEND_PORT__ w = Some 0 ->
      backendBaseUrl w loc
      = protocol loc ++ str "//" ++ hostname loc ++ str ":8000").
Proof.
  unfold backendBaseUrl, pageOrigin. split; [|split].
  - intros u -> Hne. destruct u; congruence.
  - intros p -> -> Hp. apply Z.eqb_neq in Hp. now rewrite Hp.
  - intros -> [-> | ->]; reflexivity.
Qed.

Lemma backendBaseUrl_precedence_witness :
  backendBaseUrl
    {| __BACKEND_URL__ := Some (str "https://api.example:443");
       __BACKEND_PORT__ := Some 9000 |}
    {| protocol := str "http:"; hostname := str "localhost" |}
  = str "https://api.example:443"
  /\ backendBaseUrl
       {| __BACKEND_URL__ := None; __BACKEND_PORT__ := Some 9000 |}
       {| protocol := str "https:"; hostname := str "portal.example" |}
     = str "https://portal.example:9000"
  /\ backendBaseUrl emptyWindow
       {| protocol := str "https:"; hostname := str "portal.example" |}
     = str "https://portal.example:8000".
Proof.
  split; [|split].
  - apply (proj1 (backendBaseUrl_precedence _ _)); [reflexivity|discriminate].
  - apply (proj1 (proj2 (backendBaseUrl_precedence
             {| __BACKEND_URL__ := None; __BACKEND_PORT__ := Some 9000 |}
             {| protocol := str "https:"; hostname := str "portal.example" |}))
             9000); [reflexivity|reflexivity|discriminate].
  - apply (proj2 (proj2 (backendBaseUrl_precedence emptyWindow
             {| protocol := str "https:"; hostname := str "portal.example" |})));
      [reflexivity|left; reflexivity].
Defined.

(** C6, the claim as stated fails: 443 is the default port of [https], the
    URL parser drops it from the record, and the origin of
    ["https://api.example:443/x?y=1"] is ["https://api.example"]. *)
Lemma normalizeUrl_drops_default_port :
  Whatwg.parse (str "https://api.example:443/x?y=1") None
  = Whatwg.Parsed
      {| scheme := str "https"; username := []; password := [];
         host := Some (str "api.example"); port := None;
         path := Segments [str "x"]; query := Some (str "y=1");
         fragment := None |}
  /\ @normalizeUrl reference (str "https://api.example:443/x?y=1")
     = str "https://api.example"
  /\ @normalizeUrl reference (str "https://api.example:443/x?y=1")
     <> str "https://api.example:443".
Proof. vm_compute. repeat split; discriminate. Qed.

(** The reference parser never leaves the default port of a scheme in the
    record. *)
Lemma reference_port_not_default (sc rest : jsstring) (u : url) (d : Z) :
  Whatwg.specialAuthority sc rest = Whatwg.Parsed u ->
  Whatwg.defaultPortOf sc = Some d -> port u <> Some d.
Proof.
  unfold Whatwg.specialAuthority. intros H Hd.
  destruct (Whatwg.break _ (Whatwg.dropWhile _ rest)) as [auth tail].
  destruct (Whatwg.break _ auth) as [h pp].
  destruct h as [|c h]; [discriminate|].
  destruct (negb (Whatwg.modelledHost (c :: h))); [discriminate|].
  destruct (negb (forallb isDigit (tl pp))); [discriminate|].
  destruct (65535 <? digitsValue (tl pp)); [discriminate|].
  destruct (Whatwg.splitTail tail) as [[p q] f].
  injection H as <-. simpl. rewrite Hd.
  destruct (tl pp); [discriminate|].
  destruct (d =? digitsValue _) eqn:E; [discriminate|].
  apply Z.eqb_neq in E. congruence.
Qed.

Lemma specialAuthority_shape (sc rest : jsstring) (u : url) :
  Whatwg.specialAuthority sc rest = Whatwg.Parsed u ->
  scheme u = sc /\ (exists h, host u = Some h) /\ (exists l, path u = Segments l)
  /\ portNotDefault u.
Proof.
  unfold Whatwg.specialAuthority, portNotDefault. intros H.
  destruct (Whatwg.break _ (Whatwg.dropWhile _ rest)) as [auth tail].
  destruct (Whatwg.break _ auth) as [h pp].
  destruct h as [|c h]; [discriminate|].
  destruct (negb (Whatwg.modelledHost (c :: h))); [discriminate|].
  destruct (negb (forallb isDigit (tl pp))); [discriminate|].
  destruct (65535 <? digitsValue (tl pp)); [discriminate|].
  destruct (Whatwg.splitTail tail) as [[p q] f].
  injection H as <-. cbn [scheme host path port].
  split; [reflexivity|split; [eauto|split; [eauto|]]].
  intros d Hd. rewrite Hd.
  destruct (tl pp); [discriminate|].
  destruct (d =? digitsValue _) eqn:E; [discriminate|].
  apply Z.eqb_neq in E. congruence.
Qed.

Lemma withTail_portNotDefault (b : url) (p : urlpath) (q f : option jsstring) :
  portNotDefault b -> portNotDefault (Whatwg.withTail b p q f).
Proof. unfold portNotDefault. cbn. auto. Qed.

Lemma absolute_portNotDefault (sc rest : jsstring) (u : url) :
  Whatwg.absolute sc rest = Whatwg.Parsed u -> portNotDefault u.
Proof.
  unfold Whatwg.absolute. intros H.
  destruct (negb (forallb Whatwg.plain rest)); [discriminate|].
  destruct (jseqb sc (str "file")); [discriminate|].
  destruct (isTupleScheme sc).
  - now apply specialAuthority_shape in H.
  - destruct (Whatwg.splitTail rest) as [[p q] f].
    assert (Hn : port u = None).
    { repeat match type of H with
             | match ?x with _ => _ end = _ => destruct x
             end; try discriminate; injection H as <-; reflexivity. }
    intros d _. rewrite Hn. discriminate.
Qed.

Lemma relative_portNotDefault (b : url) (s : jsstring) (u : url) :
  portNotDefault b -> Whatwg.relative b s = Whatwg.Parsed u -> portNotDefault u.
Proof.
  unfold Whatwg.relative. intros Hb H.
  destruct (path b) as [o|bs].
  - repeat match type of H with
           | match ?x with _ => _ end = _ => destruct x
           | (if ?c then _ else _) = _ => destruct c
           end; try discriminate; injection H as <-;
      now apply withTail_portNotDefault.
  - destruct (negb (isTupleScheme (scheme b))); [discriminate|].
    destruct (negb (forallb Whatwg.plain s)); [discriminate|].
    destruct (Whatwg.splitTail s) as [[p q] f].
    repeat match type of H with
           | match ?x with _ => _ end = _ => destruct x
           end;
      first [ now apply specialAuthority_shape in H
            | injection H as <-; now apply withTail_portNotDefault ].
Qed.

Lemma reference_drops_default_port : dropsDefaultPort reference.
Proof.
  intros input base u H.
  cbn [URL_parse reference] in H.
  destruct (Whatwg.parse input base) as [u'| |] eqn:E; try discriminate.
  injection H as ->. unfold Whatwg.parse, Whatwg.parseAbsolute in E.
  destruct base as [b|].
  - destruct (Whatwg.splitScheme (Whatwg.preprocess b)) as [[bsc brest]|];
      [|discriminate].
    destruct (Whatwg.absolute bsc brest) as [bu| |] eqn:Eb; try discriminate.
    apply absolute_portNotDefault in Eb.
    destruct (Whatwg.splitScheme (Whatwg.preprocess input)) as [[sc rest]|].
    + destruct (_ && _); [discriminate|]. now apply absolute_portNotDefault in E.
    + exact (relative_portNotDefault bu _ u Eb E).
  - destruct (Whatwg.splitScheme (Whatwg.preprocess input)) as [[sc rest]|];
      [|discriminate].
    now apply absolute_portNotDefault in E.
Qed.

(** C6, amended: [normalizeUrl] is total and has no failure path.  For an
    input the URL constructor accepts it returns the serialized origin of
    the URL.  For [http], [https], [ws], [wss] and [ftp] URLs that is
    scheme + "://" + host, followed by ":" + port only when the URL record
    holds a port; under the port rule of the URL Standard, which the
    reference parser is proved to follow on every input, a port held is
    never the default port of the scheme.  For a [file:] URL it is the
    origin the platform gives such URLs, and ["null"] for every other
    scheme except [blob].  For an input the constructor rejects it returns
    the input unchanged.  In particular
    [normalizeUrl("https://api.example:443/x?y=1")] is
    ["https://api.example"], with a port that is not the default
    [normalizeUrl("https://api.example:8443/x?y=1")] is
    ["https://api.example:8443"], and [normalizeUrl("not a url")] is
    ["not a url"]. *)
Theorem normalizeUrl_origin_or_input :
  (forall (P : Platform) (input : jsstring),
      (forall u, URL_parse input None = Some u -> normalizeUrl input = origin u)
      /\ (URL_parse input None = None -> normalizeUrl input = input))
  /\ (forall (P : Platform) (input : jsstring) (u : url),
        URL_parse input None = Some u ->
        (isTupleScheme (scheme u) = true ->
         normalizeUrl input
         = scheme u ++ str "://"
           ++ match host u with Some h => h | None => [] end
           ++ match port u with
              | Some n => str ":" ++ decimal n
              | None => []
              end)
        /\ (isTupleScheme (scheme u) = false ->
            jseqb (scheme u) (str "file") = true ->
            normalizeUrl input = URL_fileOrigin)
        /\ (isTupleScheme (scheme u) = false ->
            jseqb (scheme u) (str "file") = false ->
            jseqb (scheme u) (str "blob") = false ->
            normalizeUrl input = str "null"))
  /\ (forall (P : Platform), dropsDefaultPort P ->
        forall (input : jsstring) (u : url) (n : Z),
          URL_parse input None = Some u -> port u = Some n ->
          Whatwg.defaultPortOf (scheme u) <> Some n)
  /\ dropsDefaultPort reference
  /\ @normalizeUrl reference (str "https://api.example:443/x?y=1")
     = str "https://api.example"
  /\ @normalizeUrl reference (str "https://api.example:8443/x?y=1")
     = str "https://api.example:8443"
  /\ @normalizeUrl reference (str "not a url") = str "not a url".
Proof.
  split; [|split; [|split; [|split; [|split; [|split]]]]].
  - intros P input. unfold normalizeUrl. split.
    + intros u ->. reflexivity.
    + intros ->. reflexivity.
  - intros P input u Hu. unfold normalizeUrl. rewrite Hu.
    unfold origin, tupleOrigin, serializePort. split; [|split].
    + intros ->. destruct (port u); reflexivity.
    + intros -> ->. reflexivity.
    + intros -> -> ->. reflexivity.
  - intros P HP input u n Hu Hn Hd. apply (HP input None u Hu n Hd). exact Hn.
  - exact reference_drops_default_port.
  - vm_compute. reflexivity.
  - vm_compute. reflexivity.
  - vm_compute. reflexivity.
Qed.

Lemma normalizeUrl_origin_or_input_witness :
  @normalizeUrl reference (str "http://Localhost:8000/docs#top")
  = str "http://localhost:8000"
  /\ @normalizeUrl reference (str "localhost") = str "localhost"
  /\ Whatwg.defaultPortOf (str "http") <> Some 8000.
Proof.
  split; [|split].
  - apply (proj1 (proj1 normalizeUrl_origin_or_input reference
                    (str "http://Localhost:8000/docs#top"))
             {| scheme := str "http"; username := []; password := [];
                host := Some (str "localhost"); port := Some 8000;
                path := Segments [str "docs"]; query := None;
                fragment := Some (str "top") |}).
    vm_compute. reflexivity.
  - apply (proj2 (proj1 normalizeUrl_origin_or_input reference (str "localhost"))).
    vm_compute. reflexivity.
  - apply (proj1 (proj2 (proj2 normalizeUrl_origin_or_input)) reference
             (proj1 (proj2 (proj2 (proj2 normalizeUrl_origin_or_input))))
             (str "http://Localhost:8000/docs#top")
             {| scheme := str "http"; username := []; password := [];
                host := Some (str "localhost"); port := Some 8000;
                path := Segments [str "docs"]; query := None;
                fragment := Some (str "top") |} 8000).
    + vm_compute. reflexivity.
    + reflexivity.
Defined.

(** ** Request pipeline: properties *)

Section PipelineProperties.
Context {platform : Platform}.

Lemma fetchFromBackend_responded (network : jsstring -> fetched)
    (b path : jsstring) (u : url) (r : Response) :
  URL_parse path (Some b) = Some u -> network (href u) = Responded r ->
  fetchFromBackend network b path = fetchFromBackend_resume (Responded r).
Proof.
  intros Hu Hr. unfold fetchFromBackend, fetchFromBackend_start.
  now rewrite Hu, Hr.
Qed.

(** C4: a response whose status is outside 200-299 makes [fetchFromBackend]
    reject, whatever the body and the content type; the message is
    status + " " + statusText + ": " + body and so contains each of the
    three; for status 404 and body ["not found"] it contains ["404"] and
    ["not found"]. *)
Theorem fetchFromBackend_rejects_non_2xx (network : jsstring -> fetched)
    (b path : jsstring) (u : url) (r : Response) :
  URL_parse path (Some b) = Some u ->
  network (href u) = Responded r ->
  ~ (200 <= status r <= 299) ->
  exists message,
    fetchFromBackend network b path = Rejected message
    /\ message = integerToString (status r) ++ str " " ++ statusText r
                 ++ str ": " ++ text r
    /\ includes message (integerToString (status r)) = true
    /\ includes message (statusText r) = true
    /\ includes message (text r) = true
    /\ (status r = 404 -> text r = str "not found" ->
        includes message (str "404") = true
        /\ includes message (str "not found") = true).
Proof.
  intros Hu Hr Hs.
  assert (Hok : ok r = false).
  { unfold ok. apply andb_false_iff.
    destruct (Z.leb_spec 200 (status r)); [right|left; reflexivity].
    apply Z.leb_gt. lia. }
  exists (integerToString (status r) ++ str " " ++ statusText r
          ++ str ": " ++ text r).
  split; [|split; [reflexivity|]].
  - rewrite (fetchFromBackend_responded _ _ _ _ _ Hu Hr).
    simpl. rewrite Hok. reflexivity.
  - assert (H1 : includes (integerToString (status r) ++ str " " ++ statusText r
                           ++ str ": " ++ text r) (integerToString (status r)) = true)
      by apply includes_prefix.
    assert (H3 : includes (integerToString (status r) ++ str " " ++ statusText r
                           ++ str ": " ++ text r) (text r) = true).
    { rewrite !app_assoc. apply includes_suffix. }
    split; [exact H1|split; [|split; [exact H3|]]].
    + rewrite (app_assoc (integerToString (status r))). apply includes_app.
    + intros E404 Et. split.
      * rewrite E404 in H1 |- *. exact H1.
      * rewrite <- Et. exact H3.
Qed.

(** C5, amended: on a response with a status in 200-299, when the content
    type contains ["application/json"] (the substring, in this case of
    letters), [fetchFromBackend] settles as [response.json()] does: it
    returns the parsed payload when the body parses and rejects with the
    error of [json()] when it does not.  Otherwise, and when there is no
    content-type header, it returns the body text unchanged; that is so for
    ["Application/JSON"] and ["application/problem+json"] too, which do not
    contain the substring. *)
Theorem fetchFromBackend_dual_mode (network : jsstring -> fetched)
    (b path : jsstring) (u : url) (r : Response) :
  URL_parse path (Some b) = Some u ->
  network (href u) = Responded r ->
  200 <= status r <= 299 ->
  (forall ct, contentType r = Some ct ->
     includes ct (str "application/json") = true ->
     (forall payload, json r = Resolved payload ->
        fetchFromBackend network b path = Resolved payload)
     /\ (forall message, json r = Rejected message ->
           fetchFromBackend network b path = Rejected message))
  /\ (forall ct, contentType r = Some ct ->
        includes ct (str "application/json") = false ->
        fetchFromBackend network b path = Resolved (VString (text r)))
  /\ (contentType r = None ->
      fetchFromBackend network b path = Resolved (VString (text r)))
  /\ includes (str "application/json; charset=utf-8") (str "application/json") = true
  /\ includes (str "Application/JSON") (str "application/json") = false
  /\ includes (str "application/problem+json") (str "application/json") = false.
Proof.
  intros Hu Hr Hs.
  assert (Hok : ok r = true).
  { unfold ok. apply andb_true_iff. split; apply Z.leb_le; lia. }
  rewrite (fetchFromBackend_responded _ _ _ _ _ Hu Hr).
  unfold fetchFromBackend_resume. rewrite Hok. cbv [negb].
  split; [|split; [|split; [|split; [|split]]]].
  - intros ct -> Hct.
    assert (Ht : truthy ct = true) by (destruct ct; [discriminate|reflexivity]).
    rewrite Ht, Hct. cbv [andb].
    split; [intros payload ->|intros message ->]; reflexivity.
  - intros ct -> Hct. rewrite Hct, andb_false_r. reflexivity.
  - intros ->. reflexivity.
  - reflexivity.
  - reflexivity.
  - reflexivity.
Qed.

End PipelineProperties.

Lemma localHealthUrl_parsed :
  @URL_parse reference (str "/health") (Some (str "http://localhost:8000"))
  = Some localHealthUrl.
Proof. vm_compute. reflexivity. Qed.

Lemma fetchFromBackend_rejects_non_2xx_witness :
  exists message,
    @fetchFromBackend reference (fun _ => Responded notFound)
      (str "http://localhost:8000") (str "/health") = Rejected message
    /\ message = str "404 Not Found: not found"
    /\ includes message (str "404") = true
    /\ includes message (str "Not Found") = true
    /\ includes message (str "not found") = true
    /\ (404 = 404 -> str "not found" = str "not found" ->
        includes message (str "404") = true
        /\ includes message (str "not found") = true).
Proof.
  apply (@fetchFromBackend_rejects_non_2xx reference
           (fun _ => Responded notFound)
           (str "http://localhost:8000") (str "/health")
           localHealthUrl notFound localHealthUrl_parsed eq_refl).
  simpl. lia.
Defined.

(** C5, the claim as stated fails: a 200 response that declares JSON and
    has an empty body, which is not JSON, makes the pipeline reject instead
    of returning a payload; and a 200 response of type
    ["application/problem+json"] is returned as text, not parsed. *)
Lemma json_response_is_not_always_parsed :
  (ok emptyJson = true
   /\ contentType emptyJson = Some (str "application/json")
   /\ @fetchFromBackend reference (fun _ => Responded emptyJson)
        (str "http://localhost:8000") (str "/health")
      = Rejected (str "Unexpected end of JSON input"))
  /\ (ok problemJson = true
      /\ @fetchFromBackend reference (fun _ => Responded problemJson)
           (str "http://localhost:8000") (str "/health")
         = Resolved (VString (text problemJson))
      /\ @fetchFromBackend reference (fun _ => Responded problemJson)
           (str "http://localhost:8000") (str "/health")
         <> json problemJson).
Proof. vm_compute. repeat split; discriminate. Qed.

Lemma fetchFromBackend_dual_mode_witness :
  @fetchFromBackend reference (fun _ => Responded healthOk)
    (str "http://localhost:8000") (str "/health") = json healthOk
  /\ @fetchFromBackend reference (fun _ => Responded emptyJson)
       (str "http://localhost:8000") (str "/health")
     = Rejected (str "Unexpected end of JSON input")
  /\ @fetchFromBackend reference (fun _ => Responded plainOk)
       (str "http://localhost:8000") (str "/health")
     = Resolved (VString (str "pong")).
Proof.
  assert (Hs : forall r, status r = 200 -> 200 <= status r <= 299)
    by (intros r ->; lia).
  split; [|split].
  - apply (proj1 (proj1 (@fetchFromBackend_dual_mode reference
             (fun _ => Responded healthOk)
             (str "http://localhost:8000") (str "/health")
             localHealthUrl healthOk localHealthUrl_parsed eq_refl
             (Hs healthOk eq_refl)) (str "application/json") eq_refl eq_refl)).
    reflexivity.
  - apply (proj2 (proj1 (@fetchFromBackend_dual_mode reference
             (fun _ => Responded emptyJson)
             (str "http://localhost:8000") (str "/health")
             localHealthUrl emptyJson localHealthUrl_parsed eq_refl
             (Hs emptyJson eq_refl)) (str "application/json") eq_refl eq_refl)).
    reflexivity.
  - apply (proj1 (proj2 (@fetchFromBackend_dual_mode reference
             (fun _ => Responded plainOk)
             (str "http://localhost:8000") (str "/health")
             localHealthUrl plainOk localHealthUrl_parsed eq_refl
             (Hs plainOk eq_refl))) (str "text/plain")); reflexivity.
Defined.

(** ** Action handlers: properties *)

Lemma Target_eqb_eq (a b : Target) : Target_eqb a b = true <-> a = b.
Proof. destruct a, b; simpl; split; congruence. Qed.

Lemma Target_eqb_neq (a b : Target) : a <> b -> Target_eqb a b = false.
Proof.
  intros H. destruct (Target_eqb a b) eqn:E; [|reflexivity].
  apply Target_eqb_eq in E. contradiction.
Qed.

Lemma result_setResult_same (t : Target) (e : Element) (d : Dom) :
  result t (setResult t e d) = e.
Proof. destruct t; reflexivity. Qed.

Lemma result_setResult_other (a b : Target) (e : Element) (d : Dom) :
  b <> a -> result b (setResult a e d) = result b d.
Proof. destruct a, b; simpl; congruence. Qed.

Lemma result_displayResult_other (a b : Target) (v : jsvalue) (err : bool) (d : Dom) :
  b <> a -> result b (displayResult a v err d) = result b d.
Proof. apply result_setResult_other. Qed.

Lemma requestsOf_app (t : Target) (l1 l2 : list (Target * jsstring)) :
  requestsOf t (l1 ++ l2) = requestsOf t l1 ++ requestsOf t l2.
Proof. apply filter_app. Qed.

Lemma requestsOf_removeNth (b : Target) (l : list (Target * jsstring))
    (i : nat) (a : Target) (h : jsstring) :
  nth_error l i = Some (a, h) -> b <> a ->
  requestsOf b (removeNth i l) = requestsOf b l.
Proof.
  revert i; induction l as [|x l IH]; intros [|i] H Hne; simpl in *;
    try discriminate.
  - injection H as ->. simpl. rewrite Target_eqb_neq by congruence. reflexivity.
  - rewrite (IH i H Hne). reflexivity.
Qed.

Section HandlerProperties.
Context {platform : Platform}.

Lemma startAction_base (t : Target) (path : jsstring) (pg : Page) :
  base (startAction t path pg) = base pg.
Proof.
  unfold startAction, fetchFromBackend_start.
  destruct (URL_parse path (Some (base pg))); reflexivity.
Qed.

Lemma startAction_trace (t : Target) (path : jsstring) (pg : Page) :
  trace (startAction t path pg) = trace pg ++ emitted (base pg) path.
Proof.
  unfold startAction, fetchFromBackend_start, emitted.
  destruct (URL_parse path (Some (base pg))); reflexivity.
Qed.

Lemma startAction_inflight (t : Target) (path : jsstring) (pg : Page) :
  inflight (startAction t path pg) = inflight pg ++ issued t (base pg) path.
Proof.
  unfold startAction, fetchFromBackend_start, issued.
  destruct (URL_parse path (Some (base pg))); simpl;
    [reflexivity | now rewrite app_nil_r].
Qed.

(** The element an action shows right after its trigger depends on the base
    URL and the path only. *)
Lemma startAction_result (t : Target) (path : jsstring) (pg : Page) :
  result t (dom (startAction t path pg))
  = match URL_parse path (Some (base pg)) with
    | Some _ => {| errorClass := false; textContent := loadingText |}
    | None => {| errorClass := true;
                 textContent := URL_error path (Some (base pg)) |}
    end.
Proof.
  unfold startAction, fetchFromBackend_start, displayResult.
  destruct (URL_parse path (Some (base pg))); simpl;
    now rewrite result_setResult_same.
Qed.

Lemma startAction_other (t b : Target) (path : jsstring) (pg : Page) :
  b <> t ->
  result b (dom (startAction t path pg)) = result b (dom pg)
  /\ requestsOf b (inflight (startAction t path pg)) = requestsOf b (inflight pg).
Proof.
  intros Hne. split.
  - unfold startAction, fetchFromBackend_start.
    destruct (URL_parse path (Some (base pg))); simpl;
      now rewrite ?result_displayResult_other by exact Hne.
  - rewrite startAction_inflight, requestsOf_app. unfold issued.
    destruct (URL_parse path (Some (base pg))); simpl;
      [rewrite (Target_eqb_neq t b) by congruence|]; apply app_nil_r.
Qed.

Lemma step_trigger (pg : Page) (inp : Input) (t : Target) :
  isTrigger inp = true -> owner pg inp = Some t ->
  step pg inp
  = match requestedPath inp with
    | Some path => startAction t path pg
    | None =>
        {| base := base pg;
           dom := displayResult OpenItemsResult
                    (VString invalidOrganizationText) true (dom pg);
           inflight := inflight pg; trace := trace pg |}
    end.
Proof.
  destruct inp as [|value|value|i o]; simpl; try discriminate;
    intros _ H; injection H as <-; try reflexivity.
  unfold openItemsSubmit. destruct (parseInt10 value); reflexivity.
Qed.

Lemma step_base (pg : Page) (inp : Input) : base (step pg inp) = base pg.
Proof.
  destruct inp as [|value|value|i o]; simpl.
  - apply startAction_base.
  - unfold openItemsSubmit. destruct (negb _); [reflexivity|apply startAction_base].
  - apply startAction_base.
  - destruct (nth_error (inflight pg) i) as [[t h]|]; reflexivity.
Qed.

(** Frame: an input of action [a] leaves the container and the requests of
    every other action as they were. *)
Lemma step_other (pg : Page) (inp : Input) (a b : Target) :
  owner pg inp = Some a -> b <> a ->
  result b (dom (step pg inp)) = result b (dom pg)
  /\ requestsOf b (inflight (step pg inp)) = requestsOf b (inflight pg).
Proof.
  intros Ho Hne. destruct (isTrigger inp) eqn:Ht.
  - rewrite (step_trigger pg inp a Ht Ho).
    destruct (requestedPath inp) as [path|] eqn:Ep.
    + now apply startAction_other.
    + cbn [dom inflight]. split; [|reflexivity].
      destruct inp; try discriminate Ep; try discriminate Ht.
      injection Ho as <-. now apply result_displayResult_other.
  - destruct inp as [| | |i o]; try discriminate. simpl in *.
    destruct (nth_error (inflight pg) i) as [[t h]|] eqn:En; [|discriminate].
    simpl in Ho. injection Ho as ->. simpl. split.
    + unfold finishAction.
      destruct (fetchFromBackend_resume o); now apply result_displayResult_other.
    + now apply (requestsOf_removeNth b _ i a h).
Qed.

(** A trigger acts on its own container, on its own requests and on the
    trace in a way that depends on the base URL only. *)
Lemma step_trigger_own (pg1 pg2 : Page) (inp : Input) (t : Target) :
  isTrigger inp = true -> owner pg1 inp = Some t -> base pg1 = base pg2 ->
  result t (dom (step pg1 inp)) = result t (dom (step pg2 inp))
  /\ (requestsOf t (inflight pg1) = requestsOf t (inflight pg2) ->
      requestsOf t (inflight (step pg1 inp)) = requestsOf t (inflight (step pg2 inp)))
  /\ exists events,
       trace (step pg1 inp) = trace pg1 ++ events
       /\ trace (step pg2 inp) = trace pg2 ++ events.
Proof.
  intros Ht Ho Hb.
  assert (Ho2 : owner pg2 inp = Some t) by (destruct inp; try discriminate; exact Ho).
  rewrite (step_trigger pg1 inp t Ht Ho), (step_trigger pg2 inp t Ht Ho2).
  destruct (requestedPath inp) as [path|] eqn:Ep.
  - rewrite !startAction_result, !startAction_inflight, !startAction_trace, Hb.
    split; [reflexivity|split].
    + intros H. now rewrite !requestsOf_app, H.
    + eexists. split; reflexivity.
  - cbn [dom inflight trace].
    destruct inp; try discriminate Ep; try discriminate Ht.
    injection Ho as <-. unfold displayResult. rewrite !result_setResult_same.
    split; [reflexivity|split; [tauto|]].
    exists []. now rewrite !app_nil_r.
Qed.

End HandlerProperties.

Section ActionClaims.
Context {platform : Platform}.

(** C7, amended: when the organization field does not begin, after leading
    white space and an optional sign, with a decimal digit, or when its
    leading integer is not a finite Number, the handler calls the pipeline
    not at all, sends nothing to the network, and shows the validation
    message with the error class in the open-items container at once.  A
    value with a finite leading integer [n] is accepted, whatever follows
    the digits, and the pipeline is called for [n]. *)
Theorem openItems_without_leading_integer_sends_nothing (pg : Page) (value : jsstring) :
  (startsWithInteger (trimStart value) = false
   \/ isFinite (parseInt10 value) = false ->
   trace (step pg (SubmitOpenItems value)) = trace pg
   /\ inflight (step pg (SubmitOpenItems value)) = inflight pg
   /\ result OpenItemsResult (dom (step pg (SubmitOpenItems value)))
      = {| errorClass := true; textContent := invalidOrganizationText |})
  /\ (forall n, parseInt10 value = Finite n ->
        trace (step pg (SubmitOpenItems value))
        = trace pg
          ++ emitted (base pg)
               (str "/invoices/open?organization_id=" ++ integerToString n)).
Proof.
  split.
  - intros H.
    assert (Hf : isFinite (parseInt10 value) = false).
    { destruct H as [H|H]; [|exact H]. apply parseInt10_NaN in H. now rewrite H. }
    simpl. unfold openItemsSubmit. rewrite Hf. cbn [negb trace inflight dom].
    split; [reflexivity|split; reflexivity].
  - intros n Hn. simpl. unfold openItemsSubmit. rewrite Hn. cbn [isFinite negb].
    apply startAction_trace.
Qed.

(** C8: an input of one action, a failure included (a rejected URL, a
    failed request, an error status, an invalid organization), changes no
    container but that action's own and no request in flight but its own;
    and any other action, triggered afterwards, shows in its container,
    leaves in flight and sends to the network what it would have without
    that input. *)
Theorem actions_are_isolated (pg : Page) (inp : Input) (a b : Target) :
  owner pg inp = Some a -> b <> a ->
  result b (dom (step pg inp)) = result b (dom pg)
  /\ requestsOf b (inflight (step pg inp)) = requestsOf b (inflight pg)
  /\ forall inp', isTrigger inp' = true -> owner pg inp' = Some b ->
       result b (dom (step (step pg inp) inp')) = result b (dom (step pg inp'))
       /\ requestsOf b (inflight (step (step pg inp) inp'))
          = requestsOf b (inflight (step pg inp'))
       /\ exists events,
            trace (step (step pg inp) inp') = trace (step pg inp) ++ events
            /\ trace (step pg inp') = trace pg ++ events.
Proof.
  intros Ho Hne. destruct (step_other pg inp a b Ho Hne) as [Hr Hq].
  split; [exact Hr|split; [exact Hq|]].
  intros inp' Ht Ho'.
  assert (Ho2 : owner (step pg inp) inp' = Some b)
    by (destruct inp'; try discriminate; exact Ho').
  destruct (step_trigger_own (step pg inp) pg inp' b Ht Ho2 (step_base pg inp))
    as (H1 & H2 & H3).
  split; [exact H1|split; [exact (H2 Hq)|exact H3]].
Qed.

(** C9: a console submission with an empty path field calls the pipeline
    with the path ["/"]: it does what a submission of ["/"] does, and the
    one call it makes is [fetchFromBackend("/")]. *)
Theorem empty_console_path_requests_root (pg : Page) :
  step pg (SubmitConsole []) = startAction ConsoleResult (str "/") pg
  /\ step pg (SubmitConsole []) = step pg (SubmitConsole (str "/"))
  /\ invocations (trace (step pg (SubmitConsole [])))
     = invocations (trace pg) ++ [str "/"].
Proof.
  split; [reflexivity|split; [reflexivity|]].
  simpl. unfold consoleSubmit. cbn [truthy]. rewrite startAction_trace.
  unfold invocations, emitted. rewrite flat_map_app. f_equal.
  destruct (URL_parse (str "/") (Some (base pg))); reflexivity.
Qed.


End ActionClaims.





(** C7, the claim as stated fails: ["12abc"] is not a number, yet its
    submission calls the pipeline and sends a request, for organization
    12. *)
Lemma openItems_numeric_prefix_is_requested :
  denotesInteger (str "12abc") = false
  /\ trace (@step reference samplePage (SubmitOpenItems (str "12abc")))
     = [Invoke (str "/invoices/open?organization_id=12");
        Get (str "http://localhost:8000/invoices/open?organization_id=12")].
Proof. vm_compute. split; reflexivity. Qed.

Lemma openItems_without_leading_integer_witness :
  trace (@step reference samplePage (SubmitOpenItems (str "abc")))
  = trace samplePage
  /\ inflight (@step reference samplePage (SubmitOpenItems (str "abc")))
     = inflight samplePage
  /\ result OpenItemsResult
       (dom (@step reference samplePage (SubmitOpenItems (str "abc"))))
     = {| errorClass := true; textContent := invalidOrganizationText |}.
Proof.
  apply (proj1 (@openItems_without_leading_integer_sends_nothing reference
                  samplePage (str "abc"))).
  left. reflexivity.
Defined.

(** The health check fails on the network while the console is idle. *)
Lemma actions_are_isolated_witness :
  result ConsoleResult
    (dom (@step reference (@step reference samplePage ClickHealth)
            (Settle 0 (NetworkError (str "Failed to fetch")))))
  = result ConsoleResult (dom (@step reference samplePage ClickHealth)).
Proof.
  apply (proj1 (@actions_are_isolated reference
                  (@step reference samplePage ClickHealth)
                  (Settle 0 (NetworkError (str "Failed to fetch")))
                  HealthResult ConsoleResult eq_refl
                  ltac:(discriminate))).
Defined.




(** With a base URL the URL constructor rejects, the health check of the
    page load calls the pipeline and shows the error, and nothing is sent. *)
Example init_with_unparsable_base :
  let pg := @init reference (configureRuntimeEnv (str "not a url") [])
              {| protocol := str "https:"; hostname := str "portal.example" |}
              2025 sampleDom in
  trace pg = [Invoke (str "/health")]
  /\ health_result (dom pg)
     = {| errorClass := true; textContent := str "Invalid URL" |}
  /\ backend_endpoint (dom pg) = Some (str "not a url").
Proof. vm_compute. repeat split. Qed.

(** ** Numbers and their text: further lemmas *)

Lemma digitsValue_acc (ds : jsstring) (a : Z) :
  fold_left (fun acc c => 10 * acc + (Z.of_N c - 48)) ds a
  = a * 10 ^ Z.of_nat (List.length ds) + digitsValue ds.
Proof.
  unfold digitsValue. revert a.
  induction ds as [|c ds IH]; intros a.
  - simpl. lia.
  - cbn [fold_left List.length]. rewrite IH, (IH (10 * 0 + _)).
    rewrite Nat2Z.inj_succ, Z.pow_succ_r by lia. ring.
Qed.

Lemma digitsValue_app (a b : jsstring) :
  digitsValue (a ++ b) = digitsValue a * 10 ^ Z.of_nat (List.length b) + digitsValue b.
Proof.
  unfold digitsValue at 1. rewrite fold_left_app.
  fold (digitsValue a). apply digitsValue_acc.
Qed.

Lemma digitsValue_zeros (n : nat) : digitsValue (repeat 48%N n) = 0.
Proof.
  induction n as [|n IH]; [reflexivity|].
  change (repeat 48%N (S n)) with ([48%N] ++ repeat 48%N n).
  rewrite digitsValue_app, IH. reflexivity.
Qed.

Lemma forallb_isDigit_zeros (n : nat) : forallb isDigit (repeat 48%N n) = true.
Proof. induction n; simpl; auto. Qed.

Lemma digit_spec (m : Z) :
  0 <= m < 10 -> isDigit (Z.to_N (48 + m)) = true /\ Z.of_N (Z.to_N (48 + m)) - 48 = m.
Proof.
  intros H. split.
  - unfold isDigit. apply andb_true_iff. split; apply N.leb_le; lia.
  - lia.
Qed.

Lemma single_digit (m : Z) :
  0 <= m < 10 ->
  forallb isDigit [Z.to_N (48 + m)] = true /\ digitsValue [Z.to_N (48 + m)] = m.
Proof.
  intros H. destruct (digit_spec m H) as [Hd Hv]. split.
  - cbn [forallb]. now rewrite Hd.
  - unfold digitsValue. cbn [fold_left]. lia.
Qed.

Lemma digitsFuel_S (f : nat) (n : Z) (acc : jsstring) :
  digitsFuel (S f) n acc
  = if n <? 10 then Z.to_N (48 + n mod 10) :: acc
    else digitsFuel f (n / 10) (Z.to_N (48 + n mod 10) :: acc).
Proof. reflexivity. Qed.

(** The digits [digitsFuel] puts before [acc], given fuel for them. *)
Lemma digitsFuel_spec (f : nat) :
  forall (n : Z) (acc : jsstring),
    0 <= n < 2 ^ Z.of_nat (S f) ->
    exists ds,
      digitsFuel (S f) n acc = ds ++ acc
      /\ ds <> [] /\ forallb isDigit ds = true /\ digitsValue ds = n
      /\ (0 < n -> 10 ^ (Z.of_nat (List.length ds) - 1) <= n).
Proof.
  induction f as [|f IH]; intros n acc Hn.
  - assert (n < 10) by (change (2 ^ Z.of_nat 1) with 2 in Hn; lia).
    rewrite digitsFuel_S. replace (n <? 10) with true by (symmetry; apply Z.ltb_lt; lia).
    exists [Z.to_N (48 + n mod 10)].
    rewrite Z.mod_small by lia.
    destruct (single_digit n ltac:(lia)) as [Hd Hv].
    split; [reflexivity|split; [discriminate|split; [exact Hd|split; [exact Hv|]]]].
    intros Hpos. cbn [List.length]. change (Z.of_nat 1 - 1) with 0.
      rewrite Z.pow_0_r. lia.
  - rewrite digitsFuel_S. destruct (n <? 10) eqn:E.
    + apply Z.ltb_lt in E.
      exists [Z.to_N (48 + n mod 10)].
      rewrite Z.mod_small by lia.
      destruct (single_digit n ltac:(lia)) as [Hd Hv].
      split; [reflexivity|split; [discriminate|split; [exact Hd|split; [exact Hv|]]]].
      intros Hpos. cbn [List.length]. change (Z.of_nat 1 - 1) with 0.
      rewrite Z.pow_0_r. lia.
    + apply Z.ltb_ge in E.
      assert (Hq : 0 <= n / 10 < 2 ^ Z.of_nat (S f)).
      { split; [apply Z.div_pos; lia|].
        rewrite (Nat2Z.inj_succ (S f)), Z.pow_succ_r in Hn by lia.
        apply Z.div_lt_upper_bound; lia. }
      destruct (IH (n / 10) (Z.to_N (48 + n mod 10) :: acc) Hq)
        as (ds & E1 & Hne & Hall & Hval & Hlow).
      exists (ds ++ [Z.to_N (48 + n mod 10)]).
      pose proof (Z.mod_pos_bound n 10 ltac:(lia)) as Hm.
      destruct (single_digit (n mod 10) Hm) as [Hd Hv].
      split; [|split; [|split; [|split]]].
      * rewrite E1, <- app_assoc. reflexivity.
      * destruct ds; discriminate.
      * rewrite forallb_app, Hall, Hd. reflexivity.
      * rewrite digitsValue_app, Hval, Hv. cbn [List.length].
        change (10 ^ Z.of_nat 1) with 10.
        pose proof (Z.div_mod n 10 ltac:(lia)). lia.
      * intros _. rewrite length_app. simpl List.length.
        replace (Z.of_nat (List.length ds + 1) - 1)
          with (Z.succ (Z.of_nat (List.length ds) - 1)) by lia.
        assert (Hl : 0 < Z.of_nat (List.length ds)) by (destruct ds; [congruence|simpl; lia]).
        rewrite Z.pow_succ_r by lia.
        assert (0 < n / 10) by (apply Z.div_str_pos; lia).
        specialize (Hlow ltac:(lia)).
        pose proof (Z.div_mod n 10 ltac:(lia)). lia.
Qed.

Lemma decimal_spec (n : Z) :
  0 <= n ->
  decimal n <> [] /\ forallb isDigit (decimal n) = true
  /\ digitsValue (decimal n) = n
  /\ (0 < n -> 10 ^ (Z.of_nat (List.length (decimal n)) - 1) <= n).
Proof.
  intros Hn. unfold decimal.
  assert (Hb : 0 <= n < 2 ^ Z.of_nat (S (Z.to_nat (Z.log2 n)))).
  { split; [exact Hn|].
    rewrite Nat2Z.inj_succ, Z2Nat.id by apply Z.log2_nonneg.
    destruct (Z.eq_dec n 0) as [->|Hz]; [reflexivity|].
    apply Z.log2_spec. lia. }
  destruct (digitsFuel_spec _ n [] Hb) as (ds & E & H1 & H2 & H3 & H4).
  rewrite E, app_nil_r. auto.
Qed.

Lemma toNumber_small (z : Z) : Z.abs z < 2 ^ 53 -> toNumber z = Finite z.
Proof.
  intros H. unfold toNumber, roundSignificand.
  replace (Z.abs z <? 2 ^ 53) with true by (symmetry; apply Z.ltb_lt; exact H).
  replace (2 ^ 1024 <=? Z.abs z) with false.
  - f_equal. lia.
  - symmetry. apply Z.leb_gt.
    assert (2 ^ 53 < 2 ^ 1024) by (apply Z.pow_lt_mono_r; lia). lia.
Qed.

Lemma toNumber_Finite_small (y x : Z) :
  0 <= y -> x < 2 ^ 53 -> toNumber y = Finite x -> y = x.
Proof.
  intros Hy Hx H. destruct (Z.lt_ge_cases y (2 ^ 53)) as [Hs|Hb].
  - rewrite toNumber_small in H by (rewrite Z.abs_eq; lia). congruence.
  - exfalso. unfold toNumber in H. rewrite Z.abs_eq in H by exact Hy.
    assert (Hpos : 0 < y) by (pose proof (Z.pow_pos_nonneg 2 53); lia).
    pose proof (roundSignificand_lower y Hpos) as Hr.
    assert (Hl : 2 ^ 53 <= 2 ^ Z.log2 y).
    { apply Z.pow_le_mono_r; [lia|].
      apply Z.log2_le_mono in Hb. rewrite Z.log2_pow2 in Hb; lia. }
    destruct (2 ^ 1024 <=? roundSignificand y); [discriminate|].
    injection H as H. rewrite Z.sgn_pos in H by exact Hpos. lia.
Qed.

Lemma candidate_spec (x k e s e' : Z) :
  candidate x k e = Some (s, e') ->
  e' = e /\ 0 <= e /\ 0 <= s /\ toNumber (s * 10 ^ e) = Finite x.
Proof.
  pose (ok := fun s0 : Z =>
          (10 ^ (k - 1) <=? s0) && (s0 <? 10 ^ k)
          && match toNumber (s0 * 10 ^ e) with
             | Finite y => y =? x
             | _ => false
             end).
  assert (Hok : forall s0, ok s0 = true ->
                  0 <= s0 /\ toNumber (s0 * 10 ^ e) = Finite x).
  { intros s0 H. unfold ok in H.
    apply andb_true_iff in H as [H H3]. apply andb_true_iff in H as [H1 H2].
    apply Z.leb_le in H1. split.
    - pose proof (Z.pow_nonneg 10 (k - 1)). lia.
    - destruct (toNumber (s0 * 10 ^ e)); try discriminate.
      apply Z.eqb_eq in H3. congruence. }
  change (candidate x k e)
    with (if e <? 0 then None
          else match ok (x / 10 ^ e), ok (x / 10 ^ e + 1) with
               | true, true =>
                   if x - x / 10 ^ e * 10 ^ e <? (x / 10 ^ e + 1) * 10 ^ e - x
                   then Some (x / 10 ^ e, e)
                   else if (x / 10 ^ e + 1) * 10 ^ e - x <? x - x / 10 ^ e * 10 ^ e
                        then Some (x / 10 ^ e + 1, e)
                        else if Z.even (x / 10 ^ e) then Some (x / 10 ^ e, e)
                             else Some (x / 10 ^ e + 1, e)
               | true, false => Some (x / 10 ^ e, e)
               | false, true => Some (x / 10 ^ e + 1, e)
               | false, false => None
               end).
  destruct (e <? 0) eqn:Ee; [discriminate|].
  apply Z.ltb_ge in Ee.
  intros H.
  destruct (ok (x / 10 ^ e)) eqn:E1; destruct (ok (x / 10 ^ e + 1)) eqn:E2;
    try discriminate;
    repeat match type of H with
           | (if ?c then _ else _) = _ => destruct c
           end;
    injection H as <- <-;
    first [ destruct (Hok _ E1); now auto | destruct (Hok _ E2); now auto ].
Qed.

Lemma shortestFrom_spec (fuel : nat) (x d k s e : Z) :
  0 < x < 2 ^ 53 ->
  shortestFrom fuel x d k = (s, e) -> 0 <= e /\ 0 < s /\ s * 10 ^ e = x.
Proof.
  intros Hx. revert k.
  assert (Hc : forall k0 e0 s0 e1,
             candidate x k0 e0 = Some (s0, e1) ->
             0 <= e1 /\ 0 < s0 /\ s0 * 10 ^ e1 = x).
  { intros k0 e0 s0 e1 H. apply candidate_spec in H as (-> & He & Hs & Hn).
    apply toNumber_Finite_small in Hn.
    - split; [exact He|]. split; [|exact Hn].
      pose proof (Z.pow_pos_nonneg 10 e0 ltac:(lia) He). nia.
    - apply Z.mul_nonneg_nonneg; [exact Hs|]. apply Z.pow_nonneg. lia.
    - lia. }
  induction fuel as [|fuel IH]; intros k H; cbn [shortestFrom] in H.
  - injection H as <- <-. rewrite Z.pow_0_r. lia.
  - destruct (candidate x k (d - k + 1)) as [[s1 e1]|] eqn:E1.
    + injection H as <- <-. eapply Hc. exact E1.
    + destruct (candidate x k (d - k)) as [[s2 e2]|] eqn:E2.
      * injection H as <- <-. eapply Hc. exact E2.
      * eapply IH. exact H.
Qed.

Lemma positiveToString_safe (x : Z) :
  0 < x < 2 ^ 53 ->
  positiveToString x <> [] /\ forallb isDigit (positiveToString x) = true
  /\ digitsValue (positiveToString x) = x.
Proof.
  intros Hx. unfold positiveToString.
  destruct (shortest x) as [s e] eqn:Es. unfold shortest in Es.
  apply (shortestFrom_spec _ _ _ _ _ _ Hx) in Es as (He & Hs & Hv).
  destruct (decimal_spec s ltac:(lia)) as (Hne & Hall & Hval & Hlow).
  specialize (Hlow Hs).
  assert (Hl1 : 1 <= Z.of_nat (List.length (decimal s))).
  { destruct (decimal s); [congruence|cbn [List.length]; lia]. }
  assert (Hlen : Z.of_nat (List.length (decimal s)) + e <= 21).
  { destruct (Z.le_gt_cases (Z.of_nat (List.length (decimal s)) + e) 21) as [H|H];
      [exact H|exfalso].
    assert (H16 : 10 ^ 16 <= 10 ^ (Z.of_nat (List.length (decimal s)) - 1 + e))
      by (apply Z.pow_le_mono_r; lia).
    rewrite Z.pow_add_r in H16 by lia.
    assert (10 ^ (Z.of_nat (List.length (decimal s)) - 1) * 10 ^ e <= s * 10 ^ e).
    { apply Z.mul_le_mono_nonneg_r; [apply Z.pow_nonneg; lia|exact Hlow]. }
    assert (2 ^ 53 < 10 ^ 16) by reflexivity. lia. }
  replace (_ <=? 21) with true by (symmetry; apply Z.leb_le; exact Hlen).
  split; [|split].
  - destruct (decimal s); [congruence|discriminate].
  - now rewrite forallb_app, Hall, forallb_isDigit_zeros.
  - rewrite digitsValue_app, Hval, digitsValue_zeros, repeat_length, Z2Nat.id by exact He.
    lia.
Qed.

Lemma trimStart_spaces (ws s : jsstring) :
  forallb isWhiteSpace ws = true -> trimStart (ws ++ s) = trimStart s.
Proof.
  induction ws as [|c ws IH]; [reflexivity|].
  cbn [forallb app trimStart]. intros H.
  apply andb_true_iff in H as [Hc Hr]. rewrite Hc. exact (IH Hr).
Qed.

Lemma trimStart_all_spaces (ws : jsstring) :
  forallb isWhiteSpace ws = true -> trimStart ws = [].
Proof.
  intros H. rewrite <- (app_nil_r ws). now rewrite trimStart_spaces.
Qed.

Lemma trim_all_spaces (ws : jsstring) :
  forallb isWhiteSpace ws = true -> trim ws = [].
Proof. intros H. unfold trim. now rewrite trimStart_all_spaces. Qed.

Lemma trimStart_nonspace (s : jsstring) :
  match s with c :: _ => negb (isWhiteSpace c) | [] => false end = true ->
  trimStart s = s.
Proof.
  destruct s as [|c s]; [discriminate|]. cbn [trimStart].
  intros H. apply negb_true_iff in H. now rewrite H.
Qed.

Lemma trimStart_app_nonspace (s t : jsstring) :
  match s with c :: _ => negb (isWhiteSpace c) | [] => false end = true ->
  trimStart (s ++ t) = s ++ t.
Proof.
  destruct s as [|c s]; [discriminate|]. cbn [trimStart app].
  intros H. apply negb_true_iff in H. now rewrite H.
Qed.

Lemma forallb_rev {A} (p : A -> bool) (l : list A) :
  forallb p (rev l) = forallb p l.
Proof.
  induction l as [|x l IH]; [reflexivity|].
  cbn [rev forallb]. rewrite forallb_app, IH. cbn [forallb].
  rewrite andb_true_r. apply andb_comm.
Qed.

(** [trim] removes the padding of a padded string, and nothing else. *)
Lemma trim_padded (ws1 core ws2 : jsstring) :
  forallb isWhiteSpace ws1 = true -> forallb isWhiteSpace ws2 = true ->
  edgesNonSpace core = true -> trim (ws1 ++ core ++ ws2) = core.
Proof.
  intros H1 H2 He. apply andb_true_iff in He as [Hh Hl].
  unfold trim, trimEnd.
  rewrite trimStart_spaces by exact H1.
  rewrite trimStart_app_nonspace by exact Hh.
  rewrite rev_app_distr, trimStart_spaces by (rewrite forallb_rev; exact H2).
  rewrite trimStart_nonspace by exact Hl. apply rev_involutive.
Qed.

Lemma trim_edges (s : jsstring) : trim s <> [] -> edgesNonSpace (trim s) = true.
Proof.
  intros Hne. unfold edgesNonSpace. apply andb_true_iff. split.
  - destruct (trim s) as [|c r] eqn:E; [congruence|].
    now rewrite (trim_head _ _ _ E).
  - unfold trim, trimEnd in *. rewrite rev_involutive.
    destruct (trimStart (rev (trimStart s))) as [|c r] eqn:E; [now elim Hne|].
    now rewrite (trimStart_head _ _ _ E).
Qed.

Lemma trim_idempotent (s : jsstring) : trim (trim s) = trim s.
Proof.
  destruct (trim s) as [|c r] eqn:E; [reflexivity|]. rewrite <- E.
  pose proof (trim_padded [] (trim s) [] eq_refl eq_refl) as H.
  rewrite app_nil_r in H. apply H. apply trim_edges. congruence.
Qed.

Lemma digitsPrefix_app (ds rest : jsstring) :
  forallb isDigit ds = true -> noDigitHead rest = true ->
  digitsPrefix (ds ++ rest) = ds.
Proof.
  intros Hd Hr. induction ds as [|c ds IH].
  - destruct rest as [|c r]; [reflexivity|].
    cbn [app digitsPrefix]. cbn in Hr. apply negb_true_iff in Hr. now rewrite Hr.
  - cbn [forallb] in Hd. apply andb_true_iff in Hd as [Hc Hd].
    cbn [app digitsPrefix]. now rewrite Hc, (IH Hd).
Qed.

Lemma parseInt10_unsigned (ws ds rest : jsstring) :
  forallb isWhiteSpace ws = true -> ds <> [] -> forallb isDigit ds = true ->
  noDigitHead rest = true ->
  parseInt10 (ws ++ ds ++ rest) = toNumber (digitsValue ds).
Proof.
  intros Hw Hne Hd Hr. unfold parseInt10. rewrite trimStart_spaces by exact Hw.
  destruct ds as [|c r]; [congruence|].
  pose proof Hd as Hd'. cbn [forallb] in Hd. apply andb_true_iff in Hd as [Hc _].
  cbn [app trimStart]. rewrite (isDigit_not_space c Hc).
  assert (E45 : N.eqb c 45 = false) by (apply N.eqb_neq; intros ->; discriminate).
  assert (E43 : N.eqb c 43 = false) by (apply N.eqb_neq; intros ->; discriminate).
  rewrite E45, E43.
  change (c :: r ++ rest) with ((c :: r) ++ rest).
  rewrite (digitsPrefix_app _ _ Hd' Hr). reflexivity.
Qed.

Lemma parseInt10_negative (ws ds rest : jsstring) :
  forallb isWhiteSpace ws = true -> ds <> [] -> forallb isDigit ds = true ->
  noDigitHead rest = true ->
  parseInt10 (ws ++ (45%N :: ds) ++ rest) = toNumber (- digitsValue ds).
Proof.
  intros Hw Hne Hd Hr. unfold parseInt10. rewrite trimStart_spaces by exact Hw.
  cbn [app trimStart]. change (isWhiteSpace 45) with false. cbn [N.eqb Pos.eqb].
  rewrite (digitsPrefix_app _ _ Hd Hr).
  destruct ds; [congruence|reflexivity].
Qed.

(** Reading back the text of a safe integer, with white space before it
    and anything but a digit after it, gives the integer. *)
Lemma parseInt10_integerToString (z : Z) (ws rest : jsstring) :
  Z.abs z < 2 ^ 53 -> forallb isWhiteSpace ws = true -> noDigitHead rest = true ->
  parseInt10 (ws ++ integerToString z ++ rest) = Finite z.
Proof.
  intros Hz Hw Hr. unfold integerToString.
  destruct (z =? 0) eqn:E0.
  - apply Z.eqb_eq in E0. subst z.
    rewrite (parseInt10_unsigned ws (str "0") rest Hw); try reflexivity; try exact Hr.
    discriminate.
  - apply Z.eqb_neq in E0. destruct (z <? 0) eqn:En.
    + apply Z.ltb_lt in En.
      destruct (positiveToString_safe (- z) ltac:(lia)) as (Hne & Hd & Hv).
      rewrite parseInt10_negative by assumption.
      rewrite Hv, Z.opp_involutive. now apply toNumber_small.
    + apply Z.ltb_ge in En.
      destruct (positiveToString_safe z ltac:(lia)) as (Hne & Hd & Hv).
      rewrite parseInt10_unsigned by assumption.
      rewrite Hv. now apply toNumber_small.
Qed.

(** ** Environment Injector and Endpoint Resolver: further properties *)

(** The text of a safe integer: an optional minus sign and digits. *)
Lemma integerToString_safe (z : Z) :
  Z.abs z < 2 ^ 53 ->
  exists ds,
    integerToString z = (if z <? 0 then [45%N] else []) ++ ds
    /\ ds <> [] /\ forallb isDigit ds = true /\ digitsValue ds = Z.abs z.
Proof.
  intros Hz. unfold integerToString. destruct (z =? 0) eqn:E0.
  - apply Z.eqb_eq in E0. subst z. exists (str "0"). repeat split. discriminate.
  - apply Z.eqb_neq in E0. destruct (z <? 0) eqn:En.
    + apply Z.ltb_lt in En.
      destruct (positiveToString_safe (- z) ltac:(lia)) as (Hne & Hd & Hv).
      exists (positiveToString (- z)). repeat split; auto. lia.
    + apply Z.ltb_ge in En.
      destruct (positiveToString_safe z ltac:(lia)) as (Hne & Hd & Hv).
      exists (positiveToString z). repeat split; auto. lia.
Qed.

Lemma integerToString_edges (z : Z) :
  Z.abs z < 2 ^ 53 -> edgesNonSpace (integerToString z) = true.
Proof.
  intros Hz. destruct (integerToString_safe z Hz) as (ds & -> & Hne & Hd & _).
  unfold edgesNonSpace. apply andb_true_iff. split.
  - destruct (z <? 0); [reflexivity|].
    destruct ds as [|c r]; [congruence|].
    cbn [forallb] in Hd. apply andb_true_iff in Hd as [Hc _].
    cbn [app]. now rewrite (isDigit_not_space c Hc).
  - rewrite rev_app_distr. rewrite <- forallb_rev in Hd.
    destruct (rev ds) as [|c r] eqn:E.
    + apply (f_equal (@rev N)) in E. rewrite rev_involutive in E. simpl in E. congruence.
    + cbn [forallb] in Hd. apply andb_true_iff in Hd as [Hc _].
      cbn [app]. now rewrite (isDigit_not_space c Hc).
Qed.

Lemma injected_port_of_integer (urlLiteral ws1 ws2 : jsstring) (z : Z) :
  Z.abs z < 2 ^ 53 ->
  forallb isWhiteSpace ws1 = true -> forallb isWhiteSpace ws2 = true ->
  __BACKEND_PORT__
    (configureRuntimeEnv urlLiteral (ws1 ++ integerToString z ++ ws2)) = Some z.
Proof.
  intros Hz H1 H2. apply injected_port_spec.
  rewrite (trim_padded _ _ _ H1 H2 (integerToString_edges z Hz)).
  destruct (integerToString_safe z Hz) as (ds & E & Hne & Hd & _).
  split; [|split].
  - rewrite E. destruct (z <? 0); [discriminate|]. exact Hne.
  - rewrite E. destruct (z <? 0); [discriminate|].
    destruct ds as [|c r]; [congruence|].
    cbn [forallb] in Hd. apply andb_true_iff in Hd as [Hc _].
    intros E'. injection E' as -> _. discriminate.
  - pose proof (parseInt10_integerToString z [] [] Hz eq_refl eq_refl) as H.
    now rewrite app_nil_r in H.
Qed.

(** X1: inputs made of white space only, the empty input included, publish
    nothing: both slots stay unset. *)
Theorem injector_blank_inputs_publish_nothing (urlLiteral portLiteral : jsstring) :
  forallb isWhiteSpace urlLiteral = true ->
  forallb isWhiteSpace portLiteral = true ->
  configureRuntimeEnv urlLiteral portLiteral = emptyWindow.
Proof.
  intros Hu Hp. unfold configureRuntimeEnv.
  now rewrite (trim_all_spaces _ Hu), (trim_all_spaces _ Hp).
Qed.

(** X2: white space around a URL value is dropped and nothing else: the
    slot holds the value between the padding. *)
Theorem injector_publishes_url_without_padding
    (ws1 core ws2 portLiteral : jsstring) :
  forallb isWhiteSpace ws1 = true -> forallb isWhiteSpace ws2 = true ->
  edgesNonSpace core = true -> core <> urlMarker ->
  __BACKEND_URL__ (configureRuntimeEnv (ws1 ++ core ++ ws2) portLiteral) = Some core.
Proof.
  intros H1 H2 He Hm. apply injected_url_spec.
  rewrite (trim_padded _ _ _ H1 H2 He). repeat split; auto.
  intros ->. discriminate.
Qed.

(** X3: a published URL neither begins nor ends with white space, and
    trimming it again changes nothing. *)
Theorem injected_url_has_no_outer_space (urlLiteral portLiteral u : jsstring) :
  __BACKEND_URL__ (configureRuntimeEnv urlLiteral portLiteral) = Some u ->
  edgesNonSpace u = true /\ trim u = u.
Proof.
  intros H. apply injected_url_spec in H as (-> & Hne & _).
  split; [now apply trim_edges|apply trim_idempotent].
Qed.

(** X4: the text of every integer below [2^53] in magnitude, padded with
    white space or not, is published as that integer; negative numbers and
    numbers above 65535 are published too, the injector checks no range. *)
Theorem injector_publishes_any_safe_integer
    (urlLiteral ws1 ws2 : jsstring) (z : Z) :
  Z.abs z < 2 ^ 53 ->
  forallb isWhiteSpace ws1 = true -> forallb isWhiteSpace ws2 = true ->
  __BACKEND_PORT__
    (configureRuntimeEnv urlLiteral (ws1 ++ integerToString z ++ ws2)) = Some z.
Proof.
  intros Hz H1 H2. now apply injected_port_of_integer.
Qed.

(** X5: with a URL value in the URL input, the base URL of the session is
    that value, whatever the port input and the location of the page. *)
Theorem configured_url_overrides_port_and_location
    (ws1 core ws2 portLiteral : jsstring) (loc : Location) :
  forallb isWhiteSpace ws1 = true -> forallb isWhiteSpace ws2 = true ->
  edgesNonSpace core = true -> core <> urlMarker ->
  backendBaseUrl (configureRuntimeEnv (ws1 ++ core ++ ws2) portLiteral) loc = core.
Proof.
  intros H1 H2 He Hm. unfold backendBaseUrl.
  assert (E : __BACKEND_URL__ (configureRuntimeEnv (ws1 ++ core ++ ws2) portLiteral)
              = Some core).
  { apply injected_url_spec. rewrite (trim_padded _ _ _ H1 H2 He).
    repeat split; auto. intros ->. discriminate. }
  rewrite E. destruct core; [discriminate|reflexivity].
Qed.

(** X6: with no URL value, a port input that is the text of a non-zero
    integer below [2^53] in magnitude ends up, in that same text, as the
    port of the base URL built from the page's protocol and hostname. *)
Theorem configured_port_reaches_base_url
    (urlLiteral ws1 ws2 : jsstring) (z : Z) (loc : Location) :
  trim urlLiteral = [] \/ trim urlLiteral = urlMarker ->
  Z.abs z < 2 ^ 53 -> z <> 0 ->
  forallb isWhiteSpace ws1 = true -> forallb isWhiteSpace ws2 = true ->
  backendBaseUrl
    (configureRuntimeEnv urlLiteral (ws1 ++ integerToString z ++ ws2)) loc
  = protocol loc ++ str "//" ++ hostname loc ++ str ":" ++ integerToString z.
Proof.
  intros Hu Hz Hnz H1 H2. unfold backendBaseUrl.
  rewrite (injected_port_of_integer urlLiteral _ _ z Hz H1 H2).
  destruct (__BACKEND_URL__ (configureRuntimeEnv urlLiteral
              (ws1 ++ integerToString z ++ ws2))) as [u|] eqn:E.
  - apply injected_url_spec in E as (-> & Hne & Hm). tauto.
  - apply Z.eqb_neq in Hnz. now rewrite Hnz.
Qed.

(** ** Request pipeline and action handlers: further properties *)

Section FurtherProperties.
Context {platform : Platform}.

Lemma resume_responded (r : Response) :
  fetchFromBackend_resume (Responded r)
  = if ok r then (if declaresJson r then json r else Resolved (VString (text r)))
    else Rejected (integerToString (status r) ++ str " " ++ statusText r
                   ++ str ": " ++ text r).
Proof.
  unfold fetchFromBackend_resume, declaresJson.
  destruct (ok r); cbv [negb]; [|reflexivity].
  destruct (contentType r); reflexivity.
Qed.

Lemma ok_range (r : Response) : ok r = true <-> 200 <= status r <= 299.
Proof.
  unfold ok. rewrite andb_true_iff, !Z.leb_le. tauto.
Qed.

(** X7: when the URL constructor rejects the path against the base URL,
    the pipeline rejects with the constructor's message and its outcome
    does not depend on the network: no request is made. *)
Theorem fetchFromBackend_invalid_url_skips_network
    (b path : jsstring) (network1 network2 : jsstring -> fetched) :
  URL_parse path (Some b) = None ->
  fetchFromBackend network1 b path = Rejected (URL_error path (Some b))
  /\ fetchFromBackend network1 b path = fetchFromBackend network2 b path.
Proof.
  intros H. unfold fetchFromBackend, fetchFromBackend_start. rewrite H. auto.
Qed.

(** X8: the pipeline resolves exactly when the URL was built, the network
    answered with a status in 200-299, and either the content type names
    JSON and [json()] resolved (to the value returned), or it does not and
    the value returned is the body text.  A 2xx response that names JSON
    with a body [json()] rejects is a failure. *)
Theorem fetchFromBackend_resolves_iff
    (network : jsstring -> fetched) (b path : jsstring) (v : jsvalue) :
  fetchFromBackend network b path = Resolved v
  <-> exists u r,
        URL_parse path (Some b) = Some u /\ network (href u) = Responded r
        /\ 200 <= status r <= 299
        /\ (declaresJson r = true /\ json r = Resolved v
            \/ declaresJson r = false /\ v = VString (text r)).
Proof.
  unfold fetchFromBackend, fetchFromBackend_start. split.
  - destruct (URL_parse path (Some b)) as [u|]; [|discriminate].
    destruct (network (href u)) as [m|r] eqn:En; [discriminate|].
    rewrite resume_responded. destruct (ok r) eqn:Eo; [|discriminate].
    apply ok_range in Eo. intros H. exists u, r.
    split; [reflexivity|split; [exact En|split; [exact Eo|]]].
    destruct (declaresJson r); [left; auto|right].
    injection H as <-. auto.
  - intros (u & r & -> & -> & Hs & H). rewrite resume_responded.
    apply ok_range in Hs. rewrite Hs.
    destruct H as [[-> H]|[-> ->]]; auto.
Qed.

(** X9: the message of a status failure begins with the status code in
    decimal: [parseInt] reads the status back from the message. *)
Theorem status_failure_message_starts_with_status
    (network : jsstring -> fetched) (b path : jsstring) (u : url) (r : Response) :
  URL_parse path (Some b) = Some u -> network (href u) = Responded r ->
  ~ (200 <= status r <= 299) -> Z.abs (status r) < 2 ^ 53 ->
  exists message,
    fetchFromBackend network b path = Rejected message
    /\ parseInt10 message = Finite (status r).
Proof.
  intros Hu Hn Hs Hb. unfold fetchFromBackend, fetchFromBackend_start.
  rewrite Hu, Hn, resume_responded.
  destruct (ok r) eqn:Eo; [apply ok_range in Eo; contradiction|].
  eexists. split; [reflexivity|].
  exact (parseInt10_integerToString (status r) []
           (str " " ++ statusText r ++ str ": " ++ text r) Hb eq_refl eq_refl).
Qed.

Lemma finishAction_result (t : Target) (o : fetched) (d : Dom) :
  result t (finishAction t o d) = shown (fetchFromBackend_resume o).
Proof.
  unfold finishAction, displayResult.
  destruct (fetchFromBackend_resume o) as [[s|s]|m];
    now rewrite result_setResult_same.
Qed.

Lemma step_settle (pg : Page) (i : nat) (o : fetched) (t : Target) (h : jsstring) :
  nth_error (inflight pg) i = Some (t, h) ->
  step pg (Settle i o)
  = {| base := base pg; dom := finishAction t o (dom pg);
       inflight := removeNth i (inflight pg); trace := trace pg |}.
Proof. intros H. cbn [step]. now rewrite H. Qed.

(** X10: the outcome of a settled request replaces whatever its container
    showed; of two overlapping requests of one action the container ends up
    showing the outcome of the one that settles last. *)
Theorem last_settled_outcome_wins
    (pg : Page) (i j : nat) (o1 o2 : fetched) (t : Target) (h1 h2 : jsstring) :
  nth_error (inflight pg) i = Some (t, h1) ->
  nth_error (inflight (step pg (Settle i o1))) j = Some (t, h2) ->
  result t (dom (step pg (Settle i o1))) = shown (fetchFromBackend_resume o1)
  /\ result t (dom (step (step pg (Settle i o1)) (Settle j o2)))
     = shown (fetchFromBackend_resume o2).
Proof.
  intros H1 H2. split.
  - rewrite (step_settle _ _ _ _ _ H1). apply finishAction_result.
  - rewrite (step_settle _ _ _ _ _ H2). apply finishAction_result.
Qed.

Lemma removeNth_length {A} (l : list A) (i : nat) :
  (i < List.length l)%nat -> S (List.length (removeNth i l)) = List.length l.
Proof.
  revert i; induction l as [|x l IH]; intros [|i] H; cbn in *; try lia.
  rewrite IH by lia. reflexivity.
Qed.

(** X11: the settling of a request, failed or not, calls the pipeline no
    more and sends nothing (no retry); it takes exactly that request out of
    flight, and a settling for which no request is in flight changes
    nothing. *)
Theorem settling_never_sends (pg : Page) (i : nat) (o : fetched) :
  trace (step pg (Settle i o)) = trace pg
  /\ ((i < List.length (inflight pg))%nat ->
      S (List.length (inflight (step pg (Settle i o)))) = List.length (inflight pg))
  /\ ((List.length (inflight pg) <= i)%nat -> step pg (Settle i o) = pg).
Proof.
  cbn [step]. destruct (nth_error (inflight pg) i) as [[t h]|] eqn:E.
  - split; [reflexivity|split].
    + intros H. cbn [inflight]. now apply removeNth_length.
    + intros H. apply nth_error_None in H. congruence.
  - split; [reflexivity|split; [|reflexivity]].
    intros H. apply nth_error_None in E. lia.
Qed.

Lemma step_display_constants (pg : Page) (inp : Input) :
  backend_endpoint (dom (step pg inp)) = backend_endpoint (dom pg)
  /\ current_year (dom (step pg inp)) = current_year (dom pg).
Proof.
  assert (Hd : forall t v e d,
             backend_endpoint (displayResult t v e d) = backend_endpoint d
             /\ current_year (displayResult t v e d) = current_year d)
    by (intros [] ? ? ?; split; reflexivity).
  assert (Hs : forall t path,
             backend_endpoint (dom (startAction t path pg)) = backend_endpoint (dom pg)
             /\ current_year (dom (startAction t path pg)) = current_year (dom pg)).
  { intros t path. unfold startAction.
    destruct (fetchFromBackend_start (base pg) path); cbn [dom].
    - destruct (Hd t (VString j) true (displayResult t (VString loadingText) false (dom pg))) as [-> ->].
      apply Hd.
    - apply Hd. }
  destruct inp as [|value|value|i o]; cbn [step].
  - apply Hs.
  - unfold openItemsSubmit. destruct (negb _); [apply Hd|apply Hs].
  - apply Hs.
  - destruct (nth_error (inflight pg) i) as [[t h]|]; [|auto].
    cbn [dom]. unfold finishAction. destruct (fetchFromBackend_resume o); apply Hd.
Qed.

(** X12: over any sequence of user actions and settled requests the base
    URL of the session and the endpoint and year elements stay what they
    were. *)
Theorem run_keeps_session_constants (pg : Page) (inputs : list Input) :
  base (run pg inputs) = base pg
  /\ backend_endpoint (dom (run pg inputs)) = backend_endpoint (dom pg)
  /\ current_year (dom (run pg inputs)) = current_year (dom pg).
Proof.
  revert pg. unfold run.
  induction inputs as [|inp inputs IH]; intros pg; [auto|].
  cbn [fold_left]. destruct (IH (step pg inp)) as (-> & -> & ->).
  rewrite step_base. destruct (step_display_constants pg inp) as [-> ->]. auto.
Qed.


Lemma invocations_app (a b : list Event) :
  invocations (a ++ b) = invocations a ++ invocations b.
Proof. apply flat_map_app. Qed.





Lemma step_foreign (t : Target) (pg : Page) (inp : Input) :
  owner pg inp <> Some t ->
  result t (dom (step pg inp)) = result t (dom pg)
  /\ requestsOf t (inflight (step pg inp)) = requestsOf t (inflight pg).
Proof.
  intros Ho. destruct (owner pg inp) as [a|] eqn:Ea.
  - apply (step_other pg inp a t Ea). congruence.
  - destruct inp as [| | |i o]; try discriminate. cbn [step].
    cbn [owner] in Ea. destruct (nth_error (inflight pg) i); [discriminate|auto].
Qed.

Lemma run_foreign (t : Target) (pg : Page) (inputs : list Input) :
  untouched t pg inputs ->
  result t (dom (run pg inputs)) = result t (dom pg)
  /\ requestsOf t (inflight (run pg inputs)) = requestsOf t (inflight pg).
Proof.
  revert pg. unfold run.
  induction inputs as [|inp inputs IH]; intros pg H; [auto|].
  destruct H as [Ho Hr]. cbn [fold_left].
  destruct (IH _ Hr) as [-> ->]. now apply step_foreign.
Qed.

(** X14: over a run none of whose inputs belongs to an action, the
    container of that action and its requests in flight stay what they
    were. *)
Theorem untouched_action_keeps_its_state
    (t : Target) (pg : Page) (inputs : list Input) :
  untouched t pg inputs ->
  result t (dom (run pg inputs)) = result t (dom pg)
  /\ requestsOf t (inflight (run pg inputs)) = requestsOf t (inflight pg).
Proof.
  revert pg. unfold run.
  induction inputs as [|inp inputs IH]; intros pg H; [auto|].
  destruct H as [Ho Hr]. cbn [fold_left].
  destruct (IH _ Hr) as [-> ->]. now apply step_foreign.
Qed.

Lemma requestsOf_nth (t a : Target) (h : jsstring) (l : list (Target * jsstring)) (i : nat) :
  nth_error l i = Some (a, h) -> requestsOf t l = [] -> a <> t.
Proof.
  intros Hn He ->. apply nth_error_In in Hn.
  assert (Hin : In (t, h) (requestsOf t l)).
  { unfold requestsOf. apply filter_In. split; [exact Hn|].
    cbn. now apply Target_eqb_eq. }
  rewrite He in Hin. contradiction.
Qed.

Lemma triggers_owner (t : Target) (pg : Page) (inp : Input) :
  isTrigger inp = true -> (owner pg inp = Some t <-> triggers t inp = true).
Proof.
  destruct inp, t; cbn; intros H; split; intros H'; congruence.
Qed.

Lemma idle_untouched (t : Target) (pg : Page) (inputs : list Input) :
  requestsOf t (inflight pg) = [] ->
  forallb (fun inp => negb (triggers t inp)) inputs = true ->
  untouched t pg inputs.
Proof.
  intros Hq Hn. revert pg Hq.
  induction inputs as [|inp inputs IH]; intros pg Hq; [exact I|].
  cbn [forallb] in Hn. apply andb_true_iff in Hn as [Hi Hn].
  apply negb_true_iff in Hi.
  assert (Ho : owner pg inp <> Some t).
  { destruct (isTrigger inp) eqn:Et.
    - intros Ho. apply (triggers_owner t pg inp Et) in Ho. congruence.
    - destruct inp as [| | |i o]; try discriminate. cbn [owner].
      destruct (nth_error (inflight pg) i) as [[a h]|] eqn:En; [|discriminate].
      cbn. intros E. injection E as ->.
      exact (requestsOf_nth t t h _ _ En Hq eq_refl). }
  split; [exact Ho|]. apply (IH Hn).
  now rewrite (proj2 (step_foreign t pg inp Ho)).
Qed.

(** X15: an action with no request in flight whose trigger does not occur
    in a run keeps its container as it was, whatever the other actions do
    and however their requests settle, and still has no request in flight
    after the run. *)
Theorem idle_action_changes_only_when_triggered
    (t : Target) (pg : Page) (inputs : list Input) :
  requestsOf t (inflight pg) = [] ->
  forallb (fun inp => negb (triggers t inp)) inputs = true ->
  result t (dom (run pg inputs)) = result t (dom pg)
  /\ requestsOf t (inflight (run pg inputs)) = [].
Proof.
  intros Hq Hn.
  destruct (run_foreign t pg inputs (idle_untouched t pg inputs Hq Hn)) as [H1 H2].
  split; [exact H1|]. now rewrite H2.
Qed.

(** X16: an action started with a path that resolves shows the loading
    text, without the error class, throughout every run none of whose
    inputs belongs to the action, that is, as long as none of its requests
    settles, neither the new one nor an older one still in flight, and it
    is not started again; the new request stays in flight. *)
Theorem loading_persists_until_settled
    (t : Target) (path : jsstring) (u : url) (pg : Page) (inputs : list Input) :
  URL_parse path (Some (base pg)) = Some u ->
  untouched t (startAction t path pg) inputs ->
  result t (dom (run (startAction t path pg) inputs))
  = {| errorClass := false; textContent := loadingText |}
  /\ In (t, href u) (inflight (run (startAction t path pg) inputs)).
Proof.
  intros Hu Hun. destruct (run_foreign t _ inputs Hun) as [H1 H2]. split.
  - rewrite H1, startAction_result, Hu. reflexivity.
  - assert (Hin : In (t, href u) (requestsOf t (inflight (startAction t path pg)))).
    { rewrite startAction_inflight, requestsOf_app. apply in_or_app. right.
      unfold issued. rewrite Hu. cbn. rewrite (proj2 (Target_eqb_eq t t) eq_refl).
      now left. }
    rewrite <- H2 in Hin. unfold requestsOf in Hin.
    apply filter_In in Hin. tauto.
Qed.

(** X17: a console submission with a non-empty path field calls the
    pipeline with the field's value as it is, neither trimmed nor
    checked. *)
Theorem console_passes_value_verbatim (pg : Page) (value : jsstring) :
  value <> [] ->
  step pg (SubmitConsole value) = startAction ConsoleResult value pg
  /\ invocations (trace (step pg (SubmitConsole value)))
     = invocations (trace pg) ++ [value].
Proof.
  intros Hne. cbn [step]. unfold consoleSubmit.
  apply truthy_true in Hne. rewrite Hne. split; [reflexivity|].
  rewrite startAction_trace, invocations_app. f_equal.
  unfold emitted. cbn. destruct (URL_parse value (Some (base pg))); reflexivity.
Qed.

(** X18: a submission of the open-items form whose field holds, after
    white space, the text of an integer [n] below [2^53] in magnitude,
    followed by anything that does not begin with a digit, does what a
    submission of [n] alone does: the request carries the text of [n] and
    nothing else of the field. *)
Theorem openItems_requests_canonical_id
    (pg : Page) (ws rest : jsstring) (n : Z) :
  Z.abs n < 2 ^ 53 -> forallb isWhiteSpace ws = true -> noDigitHead rest = true ->
  step pg (SubmitOpenItems (ws ++ integerToString n ++ rest))
  = startAction OpenItemsResult
      (str "/invoices/open?organization_id=" ++ integerToString n) pg.
Proof.
  intros Hn Hw Hr. cbn [step]. unfold openItemsSubmit.
  now rewrite (parseInt10_integerToString n ws rest Hn Hw Hr).
Qed.

(** X19: a submission that fails validation cancels nothing: the
    requests in flight stay, and an earlier open-items request that settles
    afterwards replaces the validation message with its outcome. *)
Theorem validation_failure_keeps_pending_request
    (pg : Page) (value : jsstring) (i : nat) (h : jsstring) (o : fetched) :
  isFinite (parseInt10 value) = false ->
  nth_error (inflight pg) i = Some (OpenItemsResult, h) ->
  inflight (step pg (SubmitOpenItems value)) = inflight pg
  /\ result OpenItemsResult
       (dom (step (step pg (SubmitOpenItems value)) (Settle i o)))
     = shown (fetchFromBackend_resume o).
Proof.
  intros Hf Hn.
  assert (E : inflight (step pg (SubmitOpenItems value)) = inflight pg).
  { cbn [step]. unfold openItemsSubmit. now rewrite Hf. }
  split; [exact E|].
  rewrite (step_settle _ i o OpenItemsResult h) by (rewrite E; exact Hn).
  apply finishAction_result.
Qed.

(** X20: after the script has run, the endpoint element, when the page
    has one, shows [normalizeUrl] of the base URL, the year element the
    year; the open-items and console containers are as the markup had them,
    and the base URL of the session is the resolved one. *)
Theorem init_shows_endpoint_and_year
    (w : Window) (loc : Location) (year : Z) (d : Dom) :
  backend_endpoint (dom (init w loc year d))
  = option_map (fun _ => normalizeUrl (backendBaseUrl w loc)) (backend_endpoint d)
  /\ current_year (dom (init w loc year d))
     = option_map (fun _ => integerToString year) (current_year d)
  /\ open_items_result (dom (init w loc year d)) = open_items_result d
  /\ console_result (dom (init w loc year d)) = console_result d
  /\ base (init w loc year d) = backendBaseUrl w loc.
Proof.
  unfold init.
  set (pg := {| base := backendBaseUrl w loc; dom := _; inflight := []; trace := [] |}).
  destruct (step_display_constants pg ClickHealth) as [-> ->].
  destruct (step_foreign OpenItemsResult pg ClickHealth ltac:(discriminate)) as [H1 _].
  destruct (step_foreign ConsoleResult pg ClickHealth ltac:(discriminate)) as [H2 _].
  cbn [result] in H1, H2. rewrite H1, H2, step_base.
  cbn [pg dom base backend_endpoint current_year open_items_result console_result].
  destruct (backend_endpoint d), (current_year d); repeat split.
Qed.

(** X21: an action started with [path] whose request is answered by the
    network shows in its container what [fetchFromBackend(path)] settles
    to on that network: the value without the error class, or the message
    with it; when the URL constructor rejects the path it shows that
    failure at once. *)
Theorem action_shows_what_the_pipeline_returned
    (network : jsstring -> fetched) (t : Target) (path : jsstring) (pg : Page) :
  result t
    (dom (match URL_parse path (Some (base pg)) with
          | Some u => step (startAction t path pg)
                        (Settle (List.length (inflight pg)) (network (href u)))
          | None => startAction t path pg
          end))
  = shown (fetchFromBackend network (base pg) path).
Proof.
  unfold fetchFromBackend, fetchFromBackend_start.
  destruct (URL_parse path (Some (base pg))) as [u|] eqn:Eu.
  - rewrite (step_settle _ _ _ t (href u)); [apply finishAction_result|].
    rewrite startAction_inflight. unfold issued. rewrite Eu.
    rewrite nth_error_app2 by lia. now rewrite Nat.sub_diag.
  - rewrite startAction_result, Eu. reflexivity.
Qed.

End FurtherProperties.

(** ** Container start-up: properties *)

(** X22: started with [BACKEND_URL] and [BACKEND_PORT] unset or empty, the
    container serves a page whose base URL is the page's own protocol and
    hostname with port 8000, whether the default reached the template or
    not. *)
Theorem entrypoint_defaults_resolve_to_port_8000
    (env : Entrypoint.Environment) (loc : Location) :
  Entrypoint.BACKEND_URL env = None \/ Entrypoint.BACKEND_URL env = Some [] ->
  Entrypoint.BACKEND_PORT env = None \/ Entrypoint.BACKEND_PORT env = Some [] ->
  exists w,
    Entrypoint.runtimeConfig env = Some w
    /\ __BACKEND_URL__ w = None
    /\ backendBaseUrl w loc = protocol loc ++ str "//" ++ hostname loc ++ str ":8000".
Proof.
  intros Hu Hp. unfold Entrypoint.runtimeConfig, Entrypoint.literals.
  destruct Hu as [-> | ->], Hp as [-> | ->]; cbn;
    eexists; (split; [reflexivity|split; reflexivity]).
Qed.

Lemma literalSafe_default_port (port : option jsstring) :
  match port with Some p => Entrypoint.literalSafe p = true | None => True end ->
  Entrypoint.literalSafe
    (Entrypoint.substituted (Entrypoint.assignDefault port (str "8000"))) = true.
Proof. destruct port as [[|c p]|]; intros H; [reflexivity|exact H|reflexivity]. Qed.

(** X23: started with a [BACKEND_URL] that has a value and with a
    [BACKEND_PORT] that is unset or stays inside its string literal (no
    quote, no backslash), the container serves a page whose base URL is the
    URL value, trimmed, the same for every such port: the port variable is
    not used. *)
Theorem entrypoint_url_makes_port_irrelevant
    (env : Entrypoint.Environment) (url : jsstring) (loc : Location) :
  Entrypoint.BACKEND_URL env = Some url ->
  Entrypoint.literalSafe url = true ->
  match Entrypoint.BACKEND_PORT env with
  | Some p => Entrypoint.literalSafe p = true
  | None => True
  end ->
  trim url <> [] -> trim url <> urlMarker ->
  exists w,
    Entrypoint.runtimeConfig env = Some w /\ backendBaseUrl w loc = trim url.
Proof.
  intros Hu Hs Hp Hne Hm. unfold Entrypoint.runtimeConfig, Entrypoint.literals.
  rewrite Hu. destruct url as [|c r]; [now elim Hne|].
  cbn [Entrypoint.assignDefault Entrypoint.substituted Entrypoint.exported
       Entrypoint.value].
  rewrite Hs, (literalSafe_default_port _ Hp). cbn [andb].
  eexists. split; [reflexivity|].
  unfold backendBaseUrl.
  match goal with
  | |- context [__BACKEND_URL__ (configureRuntimeEnv ?u ?p)] =>
      assert (E : __BACKEND_URL__ (configureRuntimeEnv u p) = Some (trim (c :: r)))
        by (apply injected_url_spec; auto)
  end.
  rewrite E. destruct (trim (c :: r)); [congruence|reflexivity].
Qed.

(** ** Concrete cases of the further properties *)

Lemma injector_blank_inputs_witness :
  configureRuntimeEnv (str "   ") [] = emptyWindow.
Proof. apply injector_blank_inputs_publish_nothing; reflexivity. Defined.

Lemma injector_publishes_url_witness :
  __BACKEND_URL__
    (configureRuntimeEnv (str " " ++ str "https://api.example" ++ str "  ")
       (str "443"))
  = Some (str "https://api.example").
Proof.
  apply injector_publishes_url_without_padding; try reflexivity.
  intros E. vm_compute in E. discriminate E.
Defined.

Lemma injected_url_outer_space_witness :
  edgesNonSpace (str "http://x") = true /\ trim (str "http://x") = str "http://x".
Proof.
  apply (injected_url_has_no_outer_space (str " http://x ") [] (str "http://x")).
  reflexivity.
Defined.

Lemma injector_safe_integer_witness :
  __BACKEND_PORT__
    (configureRuntimeEnv [] (str " " ++ integerToString 70000 ++ [])) = Some 70000.
Proof. apply injector_publishes_any_safe_integer; reflexivity. Defined.

Lemma configured_url_overrides_witness :
  backendBaseUrl
    (configureRuntimeEnv (str " " ++ str "https://api.example" ++ []) (str "9000"))
    portalLocation
  = str "https://api.example".
Proof.
  apply configured_url_overrides_port_and_location; try reflexivity.
  intros E. vm_compute in E. discriminate E.
Defined.

Lemma configured_port_witness :
  backendBaseUrl
    (configureRuntimeEnv (str "${BACKEND_URL}") ([] ++ integerToString 9000 ++ []))
    portalLocation
  = protocol portalLocation ++ str "//" ++ hostname portalLocation ++ str ":"
    ++ integerToString 9000.
Proof.
  apply configured_port_reaches_base_url; try reflexivity.
  - right. reflexivity.
  - discriminate.
Defined.

Lemma invalid_url_skips_network_witness :
  @fetchFromBackend reference (fun _ => NetworkError []) (str "not a url")
    (str "/health")
  = Rejected (@URL_error reference (str "/health") (Some (str "not a url")))
  /\ @fetchFromBackend reference (fun _ => NetworkError []) (str "not a url")
       (str "/health")
     = @fetchFromBackend reference (fun _ => Responded notFound)
         (str "not a url") (str "/health").
Proof.
  apply (@fetchFromBackend_invalid_url_skips_network reference).
  vm_compute. reflexivity.
Defined.

Lemma status_failure_message_witness :
  exists message,
    @fetchFromBackend reference (fun _ => Responded notFound)
      (str "http://localhost:8000") (str "/health") = Rejected message
    /\ parseInt10 message = Finite (status notFound).
Proof.
  apply (@status_failure_message_starts_with_status reference
           (fun _ => Responded notFound) (str "http://localhost:8000")
           (str "/health") localHealthUrl notFound localHealthUrl_parsed eq_refl).
  - simpl. lia.
  - reflexivity.
Defined.

Lemma last_settled_outcome_witness :
  result HealthResult
    (dom (@step reference doubleHealthPage (Settle 1 (Responded healthOk))))
  = shown (fetchFromBackend_resume (Responded healthOk))
  /\ result HealthResult
       (dom (@step reference
               (@step reference doubleHealthPage (Settle 1 (Responded healthOk)))
               (Settle 0 (NetworkError (str "Failed to fetch")))))
     = shown (fetchFromBackend_resume (NetworkError (str "Failed to fetch"))).
Proof.
  apply (@last_settled_outcome_wins reference doubleHealthPage 1 0
           (Responded healthOk) (NetworkError (str "Failed to fetch"))
           HealthResult (str "http://localhost:8000/health")
           (str "http://localhost:8000/health")); vm_compute; reflexivity.
Defined.

Lemma untouched_action_witness :
  result ConsoleResult
    (dom (@run reference samplePage
            [ClickHealth; Settle 0 (NetworkError (str "Failed to fetch"))]))
  = result ConsoleResult (dom samplePage)
  /\ requestsOf ConsoleResult
       (inflight (@run reference samplePage
                    [ClickHealth; Settle 0 (NetworkError (str "Failed to fetch"))]))
     = requestsOf ConsoleResult (inflight samplePage).
Proof.
  apply (@untouched_action_keeps_its_state reference).
  repeat split; intros E; vm_compute in E; discriminate E.
Defined.

Lemma idle_action_witness :
  result ConsoleResult
    (dom (@run reference samplePage
            [ClickHealth; SubmitOpenItems (str "x"); Settle 0 (Responded notFound)]))
  = result ConsoleResult (dom samplePage)
  /\ requestsOf ConsoleResult
       (inflight (@run reference samplePage
                    [ClickHealth; SubmitOpenItems (str "x");
                     Settle 0 (Responded notFound)]))
     = [].
Proof.
  apply (@idle_action_changes_only_when_triggered reference); reflexivity.
Defined.

Lemma loading_persists_witness :
  result HealthResult
    (dom (@run reference (@startAction reference HealthResult (str "/health") samplePage)
            [SubmitConsole (str "/docs");
             Settle 1 (NetworkError (str "Failed to fetch"))]))
  = {| errorClass := false; textContent := loadingText |}
  /\ In (HealthResult, href localHealthUrl)
       (inflight (@run reference
                    (@startAction reference HealthResult (str "/health") samplePage)
                    [SubmitConsole (str "/docs");
                     Settle 1 (NetworkError (str "Failed to fetch"))])).
Proof.
  apply (@loading_persists_until_settled reference HealthResult (str "/health")
           localHealthUrl samplePage).
  - exact localHealthUrl_parsed.
  - repeat split; intros E; vm_compute in E; discriminate E.
Defined.

Lemma console_verbatim_witness :
  @step reference samplePage (SubmitConsole (str " /docs"))
  = @startAction reference ConsoleResult (str " /docs") samplePage
  /\ invocations (trace (@step reference samplePage (SubmitConsole (str " /docs"))))
     = invocations (trace samplePage) ++ [str " /docs"].
Proof.
  apply (@console_passes_value_verbatim reference). discriminate.
Defined.

Lemma openItems_canonical_id_witness :
  @step reference samplePage
    (SubmitOpenItems (str "  " ++ integerToString 12 ++ str "abc"))
  = @startAction reference OpenItemsResult
      (str "/invoices/open?organization_id=" ++ integerToString 12) samplePage.
Proof.
  apply (@openItems_requests_canonical_id reference); reflexivity.
Defined.

Lemma validation_failure_witness :
  inflight (@step reference openItemsBusyPage (SubmitOpenItems (str "x")))
  = inflight openItemsBusyPage
  /\ result OpenItemsResult
       (dom (@step reference
               (@step reference openItemsBusyPage (SubmitOpenItems (str "x")))
               (Settle 0 (Responded healthOk))))
     = shown (fetchFromBackend_resume (Responded healthOk)).
Proof.
  apply (@validation_failure_keeps_pending_request reference openItemsBusyPage
           (str "x") 0 (str "http://localhost:8000/invoices/open?organization_id=5")).
  - reflexivity.
  - vm_compute. reflexivity.
Defined.

Lemma entrypoint_defaults_witness :
  exists w,
    Entrypoint.runtimeConfig bareEnvironment = Some w
    /\ __BACKEND_URL__ w = None
    /\ backendBaseUrl w portalLocation
       = protocol portalLocation ++ str "//" ++ hostname portalLocation
         ++ str ":8000".
Proof.
  apply entrypoint_defaults_resolve_to_port_8000; left; reflexivity.
Defined.

Lemma entrypoint_url_witness :
  exists w,
    Entrypoint.runtimeConfig readmeEnvironment = Some w
    /\ backendBaseUrl w portalLocation = trim (str "https://mein-backend.example").
Proof.
  apply entrypoint_url_makes_port_irrelevant; try reflexivity.
  - discriminate.
  - intros E. vm_compute in E. discriminate E.
Defined.
